(** * Reflow of OCR documents with margin line numbers, and its offset ledger

    A shallow embedding of the two reflow engines of the repository:

    - [Plain]   : [Customers/Eve Legal/reflow_markdown_with_line_numbers.py]
    - [Offsets] : the offset-tracking engine that [update_notebook.py]
                  installs in the notebook ([create_enhanced_reflow_cell]).

    Python values are modelled as follows.  A [str] is a Rocq [string] read
    as a sequence of code points below 256 (Latin-1), so [len] counts
    characters; [int] is [Z]; [float] is the primitive binary64 [float];
    a raised exception is the [Raise] branch of [Py.result].  The JSON
    document is a record tree with the defaults of the [dict.get] calls
    applied where a key is absent.  Text printed to the console is not part
    of the model.

    The [Offsets] engine is the program of the cell as the cell holds it.
    [create_enhanced_reflow_cell] writes the cell as a raw literal, so a
    doubled backslash of [update_notebook.py] is a doubled backslash of the
    cell: its line separator is a backslash followed by the letter n, and
    its descriptor pattern asks for backslashes in the text. *)

From Stdlib Require Import ZArith List String Ascii Bool Lia.
From Stdlib Require Import Numbers.DecimalString.
From Stdlib Require Import Sorting.Permutation.
From Stdlib Require Import Floats.PrimFloat Numbers.Cyclic.Int63.Uint63.
Import ListNotations.

Set Warnings "-inexact-float".

Local Open Scope string_scope.
Local Open Scope list_scope.
Local Open Scope Z_scope.

(* ================================================================= *)
(** ** Python built-ins used by the program *)

Module Py.

(** Exceptions.  [msg] is the text the program passes to [ValueError];
    for exceptions raised inside built-ins it names the built-in only. *)
Inductive exn : Type :=
| ValueError (msg : string).

Inductive result (A : Type) : Type :=
| Ok (a : A)
| Raise (e : exn).

Arguments Ok {A} a.
Arguments Raise {A} e.

Definition bind {A B : Type} (r : result A) (k : A -> result B) : result B :=
  match r with
  | Ok a => k a
  | Raise e => Raise e
  end.

Definition ord (c : ascii) : N := N_of_ascii c.

Definition in_range (lo hi : N) (c : ascii) : bool :=
  ((lo <=? ord c) && (ord c <=? hi))%N.

Definition is_code (n : N) (c : ascii) : bool := (ord c =? n)%N.

(** [str.isspace] on one character: the characters [str.strip] removes. *)
Definition char_isspace (c : ascii) : bool :=
  in_range 9 13 c || in_range 28 32 c || is_code 133 c || is_code 160 c.

(** [str.isdecimal] on one character; also the class [\d] of [re]. *)
Definition char_isdecimal (c : ascii) : bool := in_range 48 57 c.

(** [str.isdigit] on one character: the decimal digits and the
    superscripts U+00B2, U+00B3 and U+00B9. *)
Definition char_isdigit (c : ascii) : bool :=
  char_isdecimal c || in_range 178 179 c || is_code 185 c.

(** [str.isalnum] on one character. *)
Definition char_isalnum (c : ascii) : bool :=
  in_range 48 57 c || in_range 65 90 c || in_range 97 122 c
  || is_code 170 c || in_range 178 179 c || is_code 181 c
  || in_range 185 186 c || in_range 188 190 c
  || in_range 192 214 c || in_range 216 246 c || in_range 248 255 c.

Fixpoint all_chars (p : ascii -> bool) (s : string) : bool :=
  match s with
  | EmptyString => true
  | String c r => p c && all_chars p r
  end.

Definition truthy (s : string) : bool := negb (s =? "")%string.

Definition isdigit (s : string) : bool := truthy s && all_chars char_isdigit s.

Definition isalnum (s : string) : bool := truthy s && all_chars char_isalnum s.

Definition len (s : string) : Z := Z.of_nat (String.length s).

Fixpoint lstrip (s : string) : string :=
  match s with
  | EmptyString => EmptyString
  | String c r => if char_isspace c then lstrip r else s
  end.

Fixpoint rstrip (s : string) : string :=
  match s with
  | EmptyString => EmptyString
  | String c r =>
      match rstrip r with
      | EmptyString => if char_isspace c then EmptyString else String c EmptyString
      | t => String c t
      end
  end.

Definition strip (s : string) : string := rstrip (lstrip s).

(** [s.split(sep)] for a one-character separator. *)
Fixpoint split (sep : ascii) (s : string) : list string :=
  match s with
  | EmptyString => [EmptyString]
  | String c r =>
      if Ascii.eqb c sep then EmptyString :: split sep r
      else match split sep r with
           | f :: fs => String c f :: fs
           | [] => [String c EmptyString]
           end
  end.

(** [sep.join(l)]. *)
Fixpoint join (sep : string) (l : list string) : string :=
  match l with
  | [] => EmptyString
  | x :: r =>
      match r with
      | [] => x
      | _ :: _ => (x ++ sep ++ join sep r)%string
      end
  end.

(** [''.join(l)]. *)
Fixpoint concat_str (l : list string) : string :=
  match l with
  | [] => EmptyString
  | x :: r => (x ++ concat_str r)%string
  end.

(** A slice bound as Python resolves it against a length [n]. *)
Definition clamp_index (n i : Z) : Z :=
  if i <? 0 then Z.max (i + n) 0 else Z.min i n.

(** [s[a:b]]. *)
Definition slice (s : string) (a b : Z) : string :=
  let lo := clamp_index (len s) a in
  let hi := clamp_index (len s) b in
  substring (Z.to_nat lo) (Z.to_nat (hi - lo)) s.

Definition digit_value (c : ascii) : Z := Z.of_N (ord c) - 48.

(** The digits of an [int] literal: decimal digits, single underscores
    allowed between two digits. *)
Fixpoint int_digits (s : string) (acc : Z) (after_digit : bool) : option Z :=
  match s with
  | EmptyString => if after_digit then Some acc else None
  | String c r =>
      if char_isdecimal c then int_digits r (10 * acc + digit_value c) true
      else if is_code 95 c && after_digit then int_digits r acc false
      else None
  end.

(** [int(s)] in base 10 for the characters of the model.  The optional
    limit some interpreters put on the number of digits is not modelled. *)
Definition int (s : string) : result Z :=
  let t := strip s in
  let '(sign, body) :=
    match t with
    | String c r =>
        if is_code 43 c then (1, r)
        else if is_code 45 c then (-1, r)
        else (1, t)
    | EmptyString => (1, t)
    end in
  match int_digits body 0 false with
  | Some n => Ok (sign * n)
  | None => Raise (ValueError "invalid literal for int() with base 10")
  end.

(** [str(n)] and the [{n}] of an f-string, for an [int]. *)
Definition str_of_int (n : Z) : string := NilZero.string_of_int (Z.to_int n).

(** [min(a, b)] and [max(a, b)] on floats: the first argument is kept
    unless the second compares strictly below (above) it. *)
Definition min (a b : float) : float := if PrimFloat.ltb b a then b else a.

Definition max (a b : float) : float := if PrimFloat.ltb a b then b else a.

(** [sorted(l, key=key)] and [l.sort(key=key)]: a stable sort that
    compares keys with [<] only.  It is the order Python returns whenever
    [<] orders the keys (no key is a NaN). *)
Fixpoint insert_by {A : Type} (key : A -> float) (x : A) (l : list A) : list A :=
  match l with
  | [] => [x]
  | y :: r => if PrimFloat.ltb (key y) (key x) then y :: insert_by key x r else x :: l
  end.

Definition sorted {A : Type} (key : A -> float) (l : list A) : list A :=
  fold_right (insert_by key) [] l.

(** *** An instance of [float()] on plain decimal literals

    The program calls the built-in [float] on each coordinate text.  The
    engines below take that function as a parameter.  [float_of_decimal]
    is the built-in restricted to literals [[+-]digits[.digits]] (blanks
    around them stripped) with a mantissa below [2^53] and at most 18
    digits after the point: there the quotient of the two exactly
    represented integers is the correctly rounded value that [float]
    returns.  Other spellings are outside this instance. *)

Fixpoint take_digits (s : string) : string * string :=
  match s with
  | EmptyString => (EmptyString, EmptyString)
  | String c r =>
      if char_isdecimal c
      then let '(d, t) := take_digits r in (String c d, t)
      else (EmptyString, s)
  end.

Fixpoint digits_value (s : string) (acc : Z) : Z :=
  match s with
  | EmptyString => acc
  | String c r => digits_value r (10 * acc + digit_value c)
  end.

Definition float_of_decimal (s : string) : option float :=
  let t := strip s in
  let '(neg, body) :=
    match t with
    | String c r =>
        if is_code 43 c then (false, r)
        else if is_code 45 c then (true, r)
        else (false, t)
    | EmptyString => (false, t)
    end in
  let '(ip, r1) := take_digits body in
  let '(fp, r2) :=
    match r1 with
    | String c r => if is_code 46 c then take_digits r else (EmptyString, r1)
    | EmptyString => (EmptyString, r1)
    end in
  if negb (truthy r2) && (truthy ip || truthy fp) then
    let m := digits_value (ip ++ fp)%string 0 in
    let e := String.length fp in
    if (m <? 2 ^ 53) && (Nat.leb e 18) then
      let q := PrimFloat.div (PrimFloat.of_uint63 (Uint63.of_Z m))
                             (PrimFloat.of_uint63 (Uint63.of_Z (10 ^ Z.of_nat e))) in
      Some (if neg then PrimFloat.opp q else q)
    else None
  else None.

End Py.

Import Py.

Notation "x <- r ;; k" := (Py.bind r (fun x => k))
  (at level 61, r at next level, right associativity).

(** The newline character, ['\n'] in the plain engine. *)
Definition newline : string := String (ascii_of_nat 10) EmptyString.

(** The backslash. *)
Definition backslash : string := String (ascii_of_nat 92) EmptyString.

(** ['\\n'] in the notebook cell.  The cell is a raw literal of
    [update_notebook.py] and holds both backslashes, so in the cell this is
    the Python literal of two characters: a backslash and the letter n. *)
Definition cell_newline : string := (backslash ++ "n")%string.

(** U+00B7, the middle dot. *)
Definition middle_dot : string := String (ascii_of_nat 183) EmptyString.

(* ================================================================= *)
(** ** The input document *)

(** [span] of a line: [{offset, length}], each possibly absent. *)
Record SpanData : Type := mkSpanData {
  span_offset : option Z;
  span_length : option Z
}.

(** One entry of [page['lines']].  An absent [content] or [source] reads
    as the empty string, as [line.get(key, '')] does. *)
Record Line : Type := mkLine {
  line_content : string;
  line_source : string;
  line_span : option SpanData
}.

Record Page : Type := mkPage {
  pageNumber : option Z;
  lines : list Line
}.

Record Content : Type := mkContent {
  kind : option string;
  pages : list Page
}.

(** [json_data]: [contents] is [json_data.get('result', {}).get('contents', [])]. *)
Record Document : Type := mkDocument {
  contents : list Content
}.

(** The regular expression [D\((\d+),([^)]+)\)] applied with [re.match]:
    the literal [D(], the longest run of digits (at least one), a comma,
    the longest run of characters other than [)] (at least one), and a
    closing [)].  The result is the pair of the two groups.  Text after
    the closing parenthesis is ignored, as [re.match] anchors the start
    only. *)
Fixpoint take_body (s : string) : option (string * string) :=
  match s with
  | EmptyString => None
  | String c r =>
      if is_code 41 c then Some (EmptyString, r)
      else match take_body r with
           | Some (b, t) => Some (String c b, t)
           | None => None
           end
  end.

Definition match_source (source : string) : option (string * string) :=
  match source with
  | String c0 (String c1 r) =>
      if is_code 68 c0 && is_code 40 c1 then
        let '(digits, r1) := take_digits r in
        if truthy digits then
          match r1 with
          | String c2 r2 =>
              if is_code 44 c2 then
                match take_body r2 with
                | Some (body, _) => if truthy body then Some (digits, body) else None
                | None => None
                end
              else None
          | EmptyString => None
          end
        else None
      else None
  | _ => None
  end.

(** The pattern of the notebook cell, [D\\((\d+),([^)]+)\\)], applied with
    [re.match].  Both backslash pairs reach [re], which reads each as one
    backslash of the text, and the parentheses next to them as the brackets
    of a group.  So the pattern is: the letter D; a backslash; group 1,
    made of group 2 (the longest run of digits, at least one), a comma,
    group 3 (characters other than [)], at least one) and a backslash.
    Group 3 is greedy: it is the longest run of characters other than [)]
    after the comma, cut before its last backslash.  The result is the text
    of the groups 1, 2 and 3. *)
Fixpoint take_run (s : string) : string :=
  match s with
  | EmptyString => EmptyString
  | String c r => if is_code 41 c then EmptyString else String c (take_run r)
  end.

(** The text before the last backslash of [s]. *)
Fixpoint upto_last_backslash (s : string) : option string :=
  match s with
  | EmptyString => None
  | String c r =>
      match upto_last_backslash r with
      | Some b => Some (String c b)
      | None => if is_code 92 c then Some EmptyString else None
      end
  end.

Definition cell_match_source (source : string) : option (string * string * string) :=
  match source with
  | String c0 (String c1 r) =>
      if is_code 68 c0 && is_code 92 c1 then
        let '(digits, r1) := take_digits r in
        if truthy digits then
          match r1 with
          | String c2 r2 =>
              if is_code 44 c2 then
                match upto_last_backslash (take_run r2) with
                | Some body =>
                    if truthy body
                    then Some ((digits ++ "," ++ body ++ backslash)%string, digits, body)
                    else None
                | None => None
                end
              else None
          | EmptyString => None
          end
        else None
      else None
  | _ => None
  end.

(** [[float(x) for x in texts]], for [float_of_str] the built-in [float]
    ([None] is its [ValueError]): the first text that fails ends the
    comprehension. *)
Fixpoint floats_of (float_of_str : string -> option float) (texts : list string)
  : result (list float) :=
  match texts with
  | [] => Ok []
  | t :: r =>
      match float_of_str t with
      | Some f => fs <- floats_of float_of_str r ;; Ok (f :: fs)
      | None => Raise (ValueError "could not convert string to float")
      end
  end.

(* ================================================================= *)
(** ** The plain engine: [reflow_markdown_with_line_numbers.py] *)

Module Plain.

(** The field [is_line_number] of the dataclass is [is_line_number_flag]
    here, the function of the same name keeping its name. *)
Record LineElement : Type := mkLineElement {
  content : string;
  y_position : float;
  x_position : float;
  page_number : Z;
  is_line_number_flag : bool
}.

Section Engine.

(** The built-in [float] on a coordinate text; [None] is its [ValueError]. *)
Variable float_of_str : string -> option float.

Definition parse_source_coordinates (source : string)
  : result (Z * float * float * float * float) :=
  match match_source source with
  | None => Raise (ValueError ("Invalid source format: " ++ source)%string)
  | Some (g1, g2) =>
      page_number <- Py.int g1 ;;
      coords <- floats_of float_of_str (Py.split "," g2) ;;
      match coords with
      | [x1; y1; x2; y2; x3; y3; x4; y4] =>
          let left_x := Py.min x1 x4 in
          let top_y := Py.min y1 y2 in
          let right_x := Py.max x2 x3 in
          let bottom_y := Py.max y3 y4 in
          Ok (page_number, left_x, top_y, right_x, bottom_y)
      | [left_x; top_y; width; height] =>
          let right_x := PrimFloat.add left_x width in
          let bottom_y := PrimFloat.add top_y height in
          Ok (page_number, left_x, top_y, right_x, bottom_y)
      | _ => Raise (ValueError ("Unexpected coordinate count in source: " ++ source)%string)
      end
  end.

Definition is_line_number (content : string) : result bool :=
  if Py.isdigit (Py.strip content) then
    n <- Py.int (Py.strip content) ;;
    Ok ((1 <=? n) && (n <=? 99))
  else Ok false.

(** The two bullet glyphs U+2022 and U+2219 of the source list lie outside
    the characters of the model, so only the middle dot is compared. *)
Definition is_noise_element (content : string) : bool :=
  let content := Py.strip content in
  (content =? middle_dot)%string
  || ((Py.len content =? 1) && negb (Py.isalnum content)).

(** One iteration of the loop of [extract_lines_from_page]: the element to
    append, or [None] where the iteration ends in [continue]. *)
Definition extract_line (line : Line) : option LineElement :=
  let content := Py.strip (line_content line) in
  let source := line_source line in
  if negb (truthy source) || negb (truthy content) then None
  else
    match parse_source_coordinates source with
    | Raise _ => None
    | Ok (parsed_page, left_x, top_y, _, _) =>
        if is_noise_element content then None
        else
          match is_line_number content with
          | Raise _ => None
          | Ok flag => Some (mkLineElement content top_y left_x parsed_page flag)
          end
    end.

Definition extract_lines_from_page (page_data : Page) : list LineElement :=
  fold_left (fun elements line =>
               match extract_line line with
               | Some element => elements ++ [element]
               | None => elements
               end)
            (lines page_data) [].

Definition y_tolerance : float := 0.15%float.

(** [abs(element.y_position - current_y) <= y_tolerance]. *)
Definition same_line (element : LineElement) (current_y : float) : bool :=
  PrimFloat.leb (PrimFloat.abs (PrimFloat.sub (y_position element) current_y)) y_tolerance.

(** The loop state of [group_lines_by_vertical_position]:
    [(groups, current_group, current_y)]. *)
Definition group_state : Type := list (list LineElement) * list LineElement * float.

Definition group_step (st : group_state) (element : LineElement) : group_state :=
  let '(groups, current_group, current_y) := st in
  if same_line element current_y
  then (groups, current_group ++ [element], current_y)
  else (groups ++ [current_group], [element], y_position element).

Definition group_sorted (sorted_elements : list LineElement) : list (list LineElement) :=
  match sorted_elements with
  | [] => []
  | first :: rest =>
      let '(groups, current_group, _) :=
        fold_left group_step rest ([], [first], y_position first) in
      match current_group with
      | [] => groups
      | _ :: _ => groups ++ [current_group]
      end
  end.

Definition group_lines_by_vertical_position (elements : list LineElement)
  : list (list LineElement) :=
  group_sorted (Py.sorted y_position elements).

(** One iteration of the loop over [line_groups]; the state is
    [output_lines]. *)
Definition reflow_group (separator : string) (output_lines : list string)
                        (group : list LineElement) : list string :=
  let group := Py.sorted x_position group in
  let line_numbers := filter is_line_number_flag group in
  let content_elements := filter (fun e => negb (is_line_number_flag e)) group in
  match content_elements with
  | [] => output_lines
  | _ :: _ =>
      let combined_content := Py.join " " (map content content_elements) in
      match line_numbers with
      | first_number :: _ =>
          output_lines ++ [(content first_number ++ separator ++ combined_content)%string]
      | [] => output_lines ++ [combined_content]
      end
  end.

Definition reflow_page_with_line_numbers (page_data : Page) (separator : string) : string :=
  match extract_lines_from_page page_data with
  | [] => EmptyString
  | elements =>
      let line_groups := group_lines_by_vertical_position elements in
      Py.join newline (fold_left (reflow_group separator) line_groups [])
  end.

(** One iteration of the loop over [pages]; the state is [output_parts]. *)
Definition document_step (target_page : option Z) (separator : string)
                         (output_parts : list string) (page : Page) : list string :=
  let page_number := match pageNumber page with Some n => n | None => 0 end in
  let skip := match target_page with
              | Some t => negb (page_number =? t)
              | None => false
              end in
  if skip then output_parts
  else
    let page_output := reflow_page_with_line_numbers page separator in
    if truthy page_output then
      let output_parts :=
        match target_page with
        | None => output_parts ++ [("<!-- Page " ++ Py.str_of_int page_number ++ " -->" ++ newline)%string]
        | Some _ => output_parts
        end in
      output_parts ++ [page_output] ++ [EmptyString]
    else output_parts.

Definition reflow_document (json_data : Document) (target_page : option Z)
                           (separator : string) : result string :=
  match contents json_data with
  | [] => Raise (ValueError "No contents found in JSON data")
  | content :: _ =>
      match pages content with
      | [] => Raise (ValueError "No pages found in document content")
      | pages => Ok (Py.join newline (fold_left (document_step target_page separator) pages []))
      end
  end.

End Engine.

End Plain.

(* ================================================================= *)
(** ** The offset-tracking engine: the cell of [update_notebook.py] *)

Module Offsets.

Record LineElement : Type := mkLineElement {
  content : string;
  y_position : float;
  x_position : float;
  page_number : Z;
  is_line_number_flag : bool;
  original_offset : option Z;
  original_length : option Z;
  bbox : option string
}.

(** The dictionary [{"start": X, "end": Y}]; the key [end] is [end_]. *)
Record Offset : Type := mkOffset {
  start : Z;
  end_ : Z
}.

Record WordOffsetInfo : Type := mkWordOffsetInfo {
  w_content : string;
  w_offset : Offset;
  w_bbox : string;
  w_original_offset : option Z
}.

Record LineOffsetInfo : Type := mkLineOffsetInfo {
  l_content : string;
  l_offset : Offset;
  l_bbox : option string;
  l_words : list WordOffsetInfo
}.

Record PageOffsetInfo : Type := mkPageOffsetInfo {
  p_page_number : Z;
  p_offset : Offset;
  p_lines : list LineOffsetInfo
}.

Record OffsetMapping : Type := mkOffsetMapping {
  mapping_pages : list PageOffsetInfo
}.

(** [x or ""] for an optional string. *)
Definition or_empty (x : option string) : string :=
  match x with
  | Some s => s
  | None => EmptyString
  end.

Section Engine.

Variable float_of_str : string -> option float.

(** [match.group(1)] is the whole of group 1 and [match.group(2)] the run
    of digits inside it. *)
Definition parse_source_coordinates (source : string)
  : result (Z * float * float * float * float * string) :=
  match cell_match_source source with
  | None => Raise (ValueError ("Invalid source format: " ++ source)%string)
  | Some (g1, g2, _) =>
      page_number <- Py.int g1 ;;
      coords <- floats_of float_of_str (Py.split "," g2) ;;
      match coords with
      | [x1; y1; x2; y2; x3; y3; x4; y4] =>
          let left_x := Py.min x1 x4 in
          let top_y := Py.min y1 y2 in
          let right_x := Py.max x2 x3 in
          let bottom_y := Py.max y3 y4 in
          Ok (page_number, left_x, top_y, right_x, bottom_y, source)
      | [left_x; top_y; width; height] =>
          let right_x := PrimFloat.add left_x width in
          let bottom_y := PrimFloat.add top_y height in
          Ok (page_number, left_x, top_y, right_x, bottom_y, source)
      | _ => Raise (ValueError ("Unexpected coordinate count: " ++ source)%string)
      end
  end.

Definition is_line_number (content : string) : result bool :=
  if Py.isdigit (Py.strip content) then
    n <- Py.int (Py.strip content) ;;
    Ok ((1 <=? n) && (n <=? 99))
  else Ok false.

Definition is_noise_element (content : string) : bool :=
  let content := Py.strip content in
  (content =? middle_dot)%string
  || ((Py.len content =? 1) && negb (Py.isalnum content)).

(** One iteration of the loop of [extract_lines_from_page]. *)
Definition extract_line (line : Line) : option LineElement :=
  let content := Py.strip (line_content line) in
  if negb (truthy content) || is_noise_element content then None
  else
    let source := line_source line in
    if negb (truthy source) then None
    else
      match parse_source_coordinates source with
      | Raise _ => None
      | Ok (page_num, left_x, top_y, _, _, bbox) =>
          let '(original_offset, original_length) :=
            match line_span line with
            | Some sp => (span_offset sp, span_length sp)
            | None => (None, None)
            end in
          match is_line_number content with
          | Raise _ => None
          | Ok flag =>
              Some (mkLineElement content top_y left_x page_num flag
                                  original_offset original_length (Some bbox))
          end
      end.

Definition extract_lines_from_page (page_data : Page) : list LineElement :=
  fold_left (fun lines line =>
               match extract_line line with
               | Some element => lines ++ [element]
               | None => lines
               end)
            (lines page_data) [].

Definition y_tolerance : float := 0.15%float.

(** [abs(element.y_position - current_group[0].y_position) < y_tolerance]. *)
Definition same_line (element anchor : LineElement) : bool :=
  PrimFloat.ltb (PrimFloat.abs (PrimFloat.sub (y_position element) (y_position anchor)))
                y_tolerance.

(** The loop state of [group_lines_by_vertical_position]:
    [(groups, current_group)].  [current_group] always holds its first
    element, so [current_group[0]] is defined; the model opens a new group
    in the branch that is never reached. *)
Definition group_state : Type := list (list LineElement) * list LineElement.

Definition group_step (st : group_state) (element : LineElement) : group_state :=
  let '(groups, current_group) := st in
  match current_group with
  | anchor :: _ =>
      if same_line element anchor
      then (groups, current_group ++ [element])
      else (groups ++ [current_group], [element])
  | [] => (groups ++ [current_group], [element])
  end.

Definition group_sorted (sorted_elements : list LineElement) : list (list LineElement) :=
  match sorted_elements with
  | [] => []
  | first :: rest =>
      let '(groups, current_group) := fold_left group_step rest ([], [first]) in
      match current_group with
      | [] => groups
      | _ :: _ => groups ++ [current_group]
      end
  end.

Definition group_lines_by_vertical_position (elements : list LineElement)
  : list (list LineElement) :=
  group_sorted (Py.sorted y_position elements).

(** The state while one line is built:
    [(line_parts, word_offset_infos, current_offset)]. *)
Definition line_state : Type := list string * list WordOffsetInfo * Z.

(** The block [if line_numbers: ...]. *)
Definition add_line_number (separator : string) (line_numbers : list LineElement)
                           (st : line_state) : line_state :=
  match line_numbers with
  | [] => st
  | first_number :: _ =>
      let '(line_parts, word_offset_infos, current_offset) := st in
      let line_num := content first_number in
      let line_parts := line_parts ++ [line_num] in
      let word_offset_infos :=
        word_offset_infos ++
        [mkWordOffsetInfo line_num
           (mkOffset current_offset (current_offset + Py.len line_num))
           (or_empty (bbox first_number))
           (original_offset first_number)] in
      let current_offset := current_offset + Py.len line_num in
      let line_parts := line_parts ++ [separator] in
      let current_offset := current_offset + Py.len separator in
      (line_parts, word_offset_infos, current_offset)
  end.

(** The loop [for i, elem in enumerate(content_elements)], from index [i]. *)
Fixpoint add_content_elements (i : nat) (content_elements : list LineElement)
                              (st : line_state) : line_state :=
  match content_elements with
  | [] => st
  | elem :: rest =>
      let '(line_parts, word_offset_infos, current_offset) := st in
      let '(line_parts, current_offset) :=
        if Nat.ltb 0 i then (line_parts ++ [" "%string], current_offset + 1)
        else (line_parts, current_offset) in
      let content := content elem in
      let line_parts := line_parts ++ [content] in
      let word_offset_infos :=
        word_offset_infos ++
        [mkWordOffsetInfo content
           (mkOffset current_offset (current_offset + Py.len content))
           (or_empty (bbox elem))
           (original_offset elem)] in
      let current_offset := current_offset + Py.len content in
      add_content_elements (S i) rest (line_parts, word_offset_infos, current_offset)
  end.

(** The state of the loop over [line_groups]:
    [(output_lines, line_offset_infos, current_offset)]. *)
Definition page_state : Type := list string * list LineOffsetInfo * Z.

Definition reflow_group (separator : string) (st : page_state)
                        (group : list LineElement) : page_state :=
  let '(output_lines, line_offset_infos, current_offset) := st in
  let group := Py.sorted x_position group in
  let line_numbers := filter is_line_number_flag group in
  let content_elements := filter (fun e => negb (is_line_number_flag e)) group in
  match content_elements with
  | [] => st
  | first_content :: _ =>
      let line_start_offset := current_offset in
      let '(line_parts, word_offset_infos, current_offset) :=
        add_content_elements 0 content_elements
          (add_line_number separator line_numbers ([], [], current_offset)) in
      let line_text := Py.concat_str line_parts in
      (output_lines ++ [line_text],
       line_offset_infos ++
       [mkLineOffsetInfo line_text (mkOffset line_start_offset current_offset)
                         (bbox first_content) word_offset_infos],
       current_offset + 1)
  end.

(** [extract_words_from_page] and the [word_lookup] dictionary built from
    it are not read again by the function and are left out. *)
Definition reflow_page_with_line_numbers_and_offsets
    (page_data : Page) (separator : string) (current_offset : Z)
  : string * PageOffsetInfo :=
  let page_number := match pageNumber page_data with Some n => n | None => 0 end in
  match extract_lines_from_page page_data with
  | [] => (EmptyString,
           mkPageOffsetInfo page_number (mkOffset current_offset current_offset) [])
  | elements =>
      let page_start_offset := current_offset in
      let line_groups := group_lines_by_vertical_position elements in
      let '(output_lines, line_offset_infos, current_offset) :=
        fold_left (reflow_group separator) line_groups ([], [], current_offset) in
      let reflowed_text := Py.join cell_newline output_lines in
      let page_end_offset := current_offset in
      (reflowed_text,
       mkPageOffsetInfo page_number (mkOffset page_start_offset page_end_offset)
                        line_offset_infos)
  end.

(** The state of the loop over [pages]:
    [(output_parts, offset_mapping.pages, current_offset)]. *)
Definition document_state : Type := list string * list PageOffsetInfo * Z.

Definition document_step (target_page : option Z) (separator : string)
                         (st : document_state) (page : Page) : document_state :=
  let '(output_parts, mapping, current_offset) := st in
  let page_number := match pageNumber page with Some n => n | None => 0 end in
  let skip := match target_page with
              | Some t => negb (page_number =? t)
              | None => false
              end in
  if skip then st
  else
    let '(output_parts, current_offset) :=
      match target_page with
      | None =>
          let page_marker :=
            (cell_newline ++ "<!-- Page " ++ Py.str_of_int page_number ++ " -->"
             ++ cell_newline)%string in
          (output_parts ++ [page_marker], current_offset + Py.len page_marker)
      | Some _ => (output_parts, current_offset)
      end in
    let '(page_output, page_offset_info) :=
      reflow_page_with_line_numbers_and_offsets page separator current_offset in
    if truthy page_output then
      let output_parts := output_parts ++ [page_output] in
      let current_offset := current_offset + Py.len page_output in
      let current_offset :=
        match target_page with
        | None => current_offset + 1
        | Some _ => current_offset
        end in
      (output_parts, mapping ++ [page_offset_info], current_offset)
    else (output_parts, mapping, current_offset).

Definition reflow_document_with_offsets (json_data : Document) (target_page : option Z)
                                        (separator : string)
  : result (string * OffsetMapping) :=
  match contents json_data with
  | [] => Raise (ValueError "No contents found in JSON data")
  | content :: _ =>
      match pages content with
      | [] => Raise (ValueError "No pages found in document content")
      | pages =>
          let '(output_parts, mapping, _) :=
            fold_left (document_step target_page separator) pages ([], [], 0) in
          let reflowed_content :=
            match target_page with
            | None => Py.join cell_newline output_parts
            | Some _ =>
                match output_parts with
                | _ :: second :: _ => second
                | [first] => first
                | [] => EmptyString
                end
            end in
          Ok (reflowed_content, mkOffsetMapping mapping)
      end
  end.

End Engine.

End Offsets.

(* ================================================================= *)
(** ** Scenarios and the vocabulary of the properties *)

(** The page of the two-line scenario: a margin number and one word on
    the same row. *)
Definition scenario_page : Page :=
  mkPage (Some 1)
    [ mkLine "1" "D(1,0.1,0.5,0.3,0.5,0.3,0.9,0.1,0.9)" None;
      mkLine "INDEX" "D(1,0.5,0.5,2.1,0.5,2.1,0.9,0.5,0.9)" None ].

Definition scenario_document : Document :=
  mkDocument [mkContent (Some "document") [scenario_page]].

(** Two pages that declare the same page number. *)
Definition repeated_page_document : Document :=
  mkDocument [mkContent (Some "document") [scenario_page; scenario_page]].

(** The one-character string U+00B2, superscript two. *)
Definition superscript_two : string := String (ascii_of_nat 178) EmptyString.

(** Two units whose top edges are exactly one tolerance apart. *)
Definition plain_unit (text : string) (y x : float) : Plain.LineElement :=
  Plain.mkLineElement text y x 1 false.

Definition offsets_unit (text : string) (y x : float) : Offsets.LineElement :=
  Offsets.mkLineElement text y x 1 false None None None.



Definition words_of (ls : list Offsets.LineOffsetInfo) : list Offsets.WordOffsetInfo :=
  flat_map Offsets.l_words ls.



(** [spans[i].end <= spans[i+1].start] for every consecutive pair. *)
Definition non_overlapping (spans : list Offsets.Offset) : Prop :=
  forall i a b,
    nth_error spans i = Some a ->
    nth_error spans (S i) = Some b ->
    Offsets.end_ a <= Offsets.start b.

(** The spans lie in order between the cursor positions [lo] and [hi]. *)
Fixpoint chain (lo : Z) (spans : list Offsets.Offset) (hi : Z) : Prop :=
  match spans with
  | [] => lo <= hi
  | s :: r => lo <= Offsets.start s /\ Offsets.start s <= Offsets.end_ s
              /\ chain (Offsets.end_ s) r hi
  end.

(** The declared number of a page, with the default of [page.get]. *)
Definition declared_number (page : Page) : Z :=
  match pageNumber page with
  | Some n => n
  | None => 0
  end.

(** The pages that pass the target filter. *)
Definition selected (target_page : option Z) (ps : list Page) : list Page :=
  match target_page with
  | None => ps
  | Some t => filter (fun p => declared_number p =? t) ps
  end.

(** What one page adds to [output_parts] in the plain engine when no
    target page is given, as the property of the page marker words it. *)
Definition marked_page_parts (float_of_str : string -> option float)
                             (separator : string) (page : Page) : list string :=
  let text := Plain.reflow_page_with_line_numbers float_of_str page separator in
  if truthy text
  then [("<!-- Page " ++ Py.str_of_int (declared_number page) ++ " -->" ++ newline)%string;
        text; EmptyString]
  else [].

(** Every line followed by the separator: the text that the cursor of the
    page loop has counted. *)
Definition counted_text (sep : string) (output_lines : list string) : string :=
  Py.concat_str (map (fun l => (l ++ sep)%string) output_lines).

(** [c] occurs in [T] at the positions [o] counted from [base]. *)
Definition located (T : string) (base : Z) (o : Offsets.Offset) (c : string) : Prop :=
  exists pre post,
    T = (pre ++ c ++ post)%string
    /\ Offsets.start o = base + Py.len pre
    /\ Offsets.end_ o = Offsets.start o + Py.len c.

(** What holds of [(line_parts, word_offset_infos, current_offset)] while
    a line that starts at [line_start] is built: the cursor has counted the
    parts, and the word spans are in order and sit on their contents. *)
Definition line_inv (line_start : Z) (st : Offsets.line_state) : Prop :=
  let '(line_parts, word_offset_infos, current_offset) := st in
  current_offset = line_start + Py.len (Py.concat_str line_parts)
  /\ chain line_start (map Offsets.w_offset word_offset_infos) current_offset
  /\ Forall (fun w => located (Py.concat_str line_parts) line_start
                              (Offsets.w_offset w) (Offsets.w_content w))
            word_offset_infos.

(** A line record and its words sit on their contents in [text]. *)
Definition line_located (text : string) (base : Z) (li : Offsets.LineOffsetInfo) : Prop :=
  located text base (Offsets.l_offset li) (Offsets.l_content li)
  /\ Forall (fun w => located text base (Offsets.w_offset w) (Offsets.w_content w))
            (Offsets.l_words li).

(** What holds of [(output_lines, line_offset_infos, current_offset)] in
    the loop over the rows of a page that starts at [page_start].  The loop
    counts one character after each line, so the spans are those of the
    lines in [text], the lines joined by one character. *)
Definition page_inv (page_start : Z) (st : Offsets.page_state) : Prop :=
  let '(output_lines, line_offset_infos, current_offset) := st in
  let text := Py.join newline output_lines in
  current_offset = page_start + Py.len (counted_text newline output_lines)
  /\ chain page_start (map Offsets.l_offset line_offset_infos) (page_start + Py.len text)
  /\ chain page_start (map Offsets.w_offset (words_of line_offset_infos))
           (page_start + Py.len text)
  /\ Forall (line_located text page_start) line_offset_infos.

(** The grouping rule in words: walking the sorted units, a unit joins the
    open group when it is [close] to the group's first unit (its anchor);
    otherwise the group closes and the unit opens the next group as its
    anchor. *)
Inductive grouped {A : Type} (close : A -> A -> bool) : list A -> list (list A) -> Prop :=
| grouped_none : grouped close [] []
| grouped_last (anchor : A) (members : list A) :
    Forall (fun e => close e anchor = true) members ->
    grouped close (anchor :: members) [anchor :: members]
| grouped_next (anchor : A) (members : list A) (next : A) (rest : list A)
               (groups : list (list A)) :
    Forall (fun e => close e anchor = true) members ->
    close next anchor = false ->
    grouped close (next :: rest) groups ->
    grouped close (anchor :: members ++ next :: rest) ((anchor :: members) :: groups).

(** The pages of the first content entry. *)
Definition pages_of (json_data : Document) : list Page :=
  match contents json_data with
  | content :: _ => pages content
  | [] => []
  end.

(** The marker that the notebook cell writes before a page. *)
Definition cell_page_marker (page : Page) : string :=
  (cell_newline ++ "<!-- Page " ++ Py.str_of_int (declared_number page) ++ " -->"
   ++ cell_newline)%string.

(** The units of the scenario page: the margin number and the word, with
    the left and top edges of their boxes. *)
Definition scenario_units : list Offsets.LineElement :=
  [ Offsets.mkLineElement "1" 0.5 0.1 1 true None None
      (Some "D(1,0.1,0.5,0.3,0.5,0.3,0.9,0.1,0.9)");
    Offsets.mkLineElement "INDEX" 0.5 0.5 1 false None None
      (Some "D(1,0.5,0.5,2.1,0.5,2.1,0.9,0.5,0.9)") ].

Ltac char_classes :=
  unfold char_isdigit, char_isdecimal, char_isspace, char_isalnum, in_range, is_code in *;
  repeat match goal with
         | |- context [(?a <=? ?b)%N] => destruct (N.leb_spec a b)
         | |- context [(?a =? ?b)%N] => destruct (N.eqb_spec a b)
         | H : context [(?a <=? ?b)%N] |- _ => destruct (N.leb_spec a b)
         | H : context [(?a =? ?b)%N] |- _ => destruct (N.eqb_spec a b)
         end;
  simpl in *; try reflexivity; try discriminate; try lia.

(* ================================================================= *)
(** ** The mapping as a dictionary, the accuracy test of the demo, and the
       notebook update *)

(** [offset_mapping_to_dict] of the demo cell of [update_notebook.py]: the
    dictionaries it builds, with their keys as fields, and the conversion. *)
Module Dict.

Record WordDict : Type := mkWordDict {
  w_content : string;
  w_offset : Offsets.Offset;
  w_bbox : string;
  w_originalOffset : option Z
}.

Record LineDict : Type := mkLineDict {
  l_content : string;
  l_offset : Offsets.Offset;
  l_bbox : option string;
  l_words : list WordDict
}.

Record PageDict : Type := mkPageDict {
  p_pageNumber : Z;
  p_offset : Offsets.Offset;
  p_lines : list LineDict
}.

Record MappingDict : Type := mkMappingDict {
  m_pages : list PageDict
}.





End Dict.

(** [test_offset_accuracy] of [notebooks/demo_offset_visualization.py];
    its value is [pass_count == test_count]. *)
Module Demo.

(** The body of the inner loop; the state is [(test_count, pass_count)]. *)
Definition check_line (content : string) (counts : Z * Z) (line : Dict.LineDict)
  : Z * Z :=
  let '(test_count, pass_count) := counts in
  let start := Offsets.start (Dict.l_offset line) in
  let end_ := Offsets.end_ (Dict.l_offset line) in
  let extracted := Py.slice content start end_ in
  let expected := Dict.l_content line in
  let test_count := test_count + 1 in
  if (extracted =? expected)%string
  then (test_count, pass_count + 1)
  else (test_count, pass_count).

Definition check_page (content : string) (counts : Z * Z) (page : Dict.PageDict)
  : Z * Z :=
  fold_left (check_line content) (firstn 3 (Dict.p_lines page)) counts.

Definition test_offset_accuracy (content : string) (mapping : Dict.MappingDict) : bool :=
  let '(test_count, pass_count) :=
    fold_left (check_page content) (Dict.m_pages mapping) (0, 0) in
  pass_count =? test_count.

End Demo.

(** [needle in haystack] on strings. *)
Fixpoint str_contains (needle haystack : string) : bool :=
  String.prefix needle haystack
  || match haystack with
     | EmptyString => false
     | String _ rest => str_contains needle rest
     end.

(** [l.insert(i, x)] for an index [i >= 0]: beyond the end it appends. *)
Definition list_insert {A : Type} (i : nat) (x : A) (l : list A) : list A :=
  firstn i l ++ x :: skipn i l.

(** [update_notebook] of [update_notebook.py], on the list
    [notebook['cells']]: the result is the list that is saved, or [None]
    where the function returns [False] without saving.  A cell is its type,
    its source and its other keys; the sources of the cells the script
    writes (the texts of the [create_..._cell] functions split at newlines,
    and the two literal markdown sources) are parameters. *)
Module Notebook.

Section Cells.

Variable keys : Type.

Record Cell : Type := mkCell {
  cell_type : string;
  source : list string;
  other_keys : keys
}.

(** The other keys of the code cells and of the markdown cells that the
    script creates ([id], [metadata], [outputs], [execution_count]). *)
Variable viz_keys explanation_keys demo_keys header_keys full_doc_keys : keys.

Variable enhanced_source viz_source explanation_source demo_source
         header_source full_doc_source : list string.

(** The test of the loop that looks for the reflow cell: a code cell
    whose joined source holds both texts. *)
Definition is_reflow_cell (cell : Cell) : bool :=
  (cell_type cell =? "code")%string
  && str_contains "def reflow_page_with_line_numbers" (Py.concat_str (source cell))
  && str_contains "class LineElement" (Py.concat_str (source cell)).

(** The loop that looks for the reflow cell, from index [i]. *)
Fixpoint find_reflow_cell (i : nat) (cells : list Cell) : option nat :=
  match cells with
  | [] => None
  | cell :: rest =>
      if is_reflow_cell cell then Some i else find_reflow_cell (S i) rest
  end.

(** [cells[i]['source'] = new_source]. *)
Fixpoint set_source (i : nat) (new_source : list string) (cells : list Cell) : list Cell :=
  match cells, i with
  | [], _ => []
  | cell :: rest, O => mkCell (cell_type cell) new_source (other_keys cell) :: rest
  | cell :: rest, S j => cell :: set_source j new_source rest
  end.

Definition update_cells (cells : list Cell) : option (list Cell) :=
  match find_reflow_cell 0 cells with
  | None => None
  | Some reflow_cell_index =>
      let cells := set_source reflow_cell_index enhanced_source cells in
      let insert_index := (reflow_cell_index + 6)%nat in
      let cells := list_insert insert_index (mkCell "code" viz_source viz_keys) cells in
      let insert_index := (insert_index + 1)%nat in
      let cells :=
        list_insert insert_index (mkCell "markdown" explanation_source explanation_keys)
                    cells in
      let insert_index := (insert_index + 1)%nat in
      let cells := list_insert insert_index (mkCell "code" demo_source demo_keys) cells in
      let insert_index := (insert_index + 1)%nat in
      let cells :=
        list_insert insert_index (mkCell "markdown" header_source header_keys) cells in
      let insert_index := (insert_index + 1)%nat in
      let cells :=
        list_insert insert_index (mkCell "code" full_doc_source full_doc_keys) cells in
      Some cells
  end.

End Cells.

End Notebook.

(* ================================================================= *)
(** ** Vocabulary of the further properties *)

(** An element of the offset-tracking engine without its offset fields. *)
Definition forget (e : Offsets.LineElement) : Plain.LineElement :=
  Plain.mkLineElement (Offsets.content e) (Offsets.y_position e) (Offsets.x_position e)
                      (Offsets.page_number e) (Offsets.is_line_number_flag e).

(** A span is as long as its content. *)
Definition span_fits (o : Offsets.Offset) (c : string) : Prop :=
  Offsets.end_ o = Offsets.start o + Py.len c.

Definition line_fits (li : Offsets.LineOffsetInfo) : Prop :=
  span_fits (Offsets.l_offset li) (Offsets.l_content li)
  /\ Forall (fun w => span_fits (Offsets.w_offset w) (Offsets.w_content w))
            (Offsets.l_words li).

(** Spans and records moved by [d] characters. *)
Definition shift_offset (d : Z) (o : Offsets.Offset) : Offsets.Offset :=
  Offsets.mkOffset (Offsets.start o + d) (Offsets.end_ o + d).

Definition shift_word (d : Z) (w : Offsets.WordOffsetInfo) : Offsets.WordOffsetInfo :=
  Offsets.mkWordOffsetInfo (Offsets.w_content w) (shift_offset d (Offsets.w_offset w))
                           (Offsets.w_bbox w) (Offsets.w_original_offset w).

Definition shift_line (d : Z) (l : Offsets.LineOffsetInfo) : Offsets.LineOffsetInfo :=
  Offsets.mkLineOffsetInfo (Offsets.l_content l) (shift_offset d (Offsets.l_offset l))
                           (Offsets.l_bbox l) (map (shift_word d) (Offsets.l_words l)).

Definition shift_line_state (d : Z) (st : Offsets.line_state) : Offsets.line_state :=
  let '(line_parts, word_offset_infos, current_offset) := st in
  (line_parts, map (shift_word d) word_offset_infos, current_offset + d).

Definition shift_page_state (d : Z) (st : Offsets.page_state) : Offsets.page_state :=
  let '(output_lines, line_offset_infos, current_offset) := st in
  (output_lines, map (shift_line d) line_offset_infos, current_offset + d).

(** The text of one row: the leftmost margin number and the separator, if
    the row has a number, then the content units joined by single spaces. *)
Definition row_text (separator : string) (numbers contents : list string) : string :=
  match numbers with
  | number :: _ => (number ++ separator ++ Py.join " " contents)%string
  | [] => Py.join " " contents
  end.

(* ================================================================= *)
(** ** Characters, strings and numbers *)

Lemma decimal_not_space (c : ascii) :
  char_isdecimal c = true -> char_isspace c = false.
Proof. intros H. char_classes. Qed.

Lemma decimal_not_sign (c : ascii) :
  char_isdecimal c = true -> is_code 43 c = false /\ is_code 45 c = false.
Proof. intros H. split; char_classes. Qed.

Lemma decimal_is_digit (c : ascii) :
  char_isdecimal c = true -> char_isdigit c = true.
Proof. intros H. unfold char_isdigit. rewrite H. reflexivity. Qed.

Lemma len_append (s t : string) : Py.len (s ++ t)%string = Py.len s + Py.len t.
Proof.
  unfold Py.len. induction s as [|c s IH]; simpl String.length.
  - simpl. lia.
  - simpl String.append. simpl String.length. lia.
Qed.

Lemma len_nonneg (s : string) : 0 <= Py.len s.
Proof. unfold Py.len. lia. Qed.

Lemma append_assoc (a b c : string) : ((a ++ b) ++ c = a ++ b ++ c)%string.
Proof. induction a as [|x a IH]; simpl; [reflexivity | rewrite IH; reflexivity]. Qed.

Lemma append_empty_r (a : string) : (a ++ "")%string = a.
Proof. induction a as [|x a IH]; simpl; [reflexivity | rewrite IH; reflexivity]. Qed.

Lemma rstrip_no_space (s : string) :
  all_chars (fun c => negb (char_isspace c)) s = true -> Py.rstrip s = s.
Proof.
  induction s as [|c s IH]; simpl; intros H.
  - reflexivity.
  - apply andb_prop in H. destruct H as [Hc Hs].
    rewrite (IH Hs). apply negb_true_iff in Hc. rewrite Hc.
    destruct s; reflexivity.
Qed.

Lemma all_chars_impl (p q : ascii -> bool) (s : string) :
  (forall c, p c = true -> q c = true) ->
  all_chars p s = true -> all_chars q s = true.
Proof.
  intros Hpq. induction s as [|c s IH]; simpl; intros H.
  - reflexivity.
  - apply andb_prop in H. destruct H as [Hc Hs].
    rewrite (Hpq c Hc), (IH Hs). reflexivity.
Qed.

Lemma strip_decimal (s : string) :
  all_chars char_isdecimal s = true -> Py.strip s = s.
Proof.
  intros H. unfold Py.strip.
  assert (Hl : Py.lstrip s = s).
  { destruct s as [|c s]; simpl; [reflexivity|].
    simpl in H. apply andb_prop in H. destruct H as [Hc _].
    rewrite (decimal_not_space c Hc). reflexivity. }
  rewrite Hl. apply rstrip_no_space.
  apply all_chars_impl with (p := char_isdecimal); [|exact H].
  intros c Hc. rewrite (decimal_not_space c Hc). reflexivity.
Qed.

Lemma int_digits_decimal (s : string) :
  all_chars char_isdecimal s = true ->
  forall acc after_digit,
    (truthy s = true \/ after_digit = true) ->
    Py.int_digits s acc after_digit = Some (Py.digits_value s acc).
Proof.
  induction s as [|c s IH]; simpl; intros H acc after_digit Hne.
  - destruct Hne as [Hne | Hne]; [discriminate | rewrite Hne; reflexivity].
  - apply andb_prop in H. destruct H as [Hc Hs].
    rewrite Hc. apply IH; [exact Hs | right; reflexivity].
Qed.

(** [int] reads a non-empty run of decimal digits as its decimal value. *)
Lemma int_decimal (s : string) :
  all_chars char_isdecimal s = true -> truthy s = true ->
  Py.int s = Ok (Py.digits_value s 0).
Proof.
  intros H Hne. unfold Py.int. rewrite (strip_decimal s H).
  destruct s as [|c s]; [discriminate|].
  pose proof H as H'. simpl in H'. apply andb_prop in H'. destruct H' as [Hc _].
  destruct (decimal_not_sign c Hc) as [Hp Hm]. rewrite Hp, Hm.
  rewrite (int_digits_decimal (String c s) H 0 false (or_introl Hne)).
  f_equal. lia.
Qed.

Lemma take_digits_decimal (s : string) :
  all_chars char_isdecimal (fst (Py.take_digits s)) = true.
Proof.
  induction s as [|c s IH]; simpl.
  - reflexivity.
  - destruct (char_isdecimal c) eqn:Hc.
    + destruct (Py.take_digits s) as [d t]. simpl in *. rewrite Hc, IH. reflexivity.
    + reflexivity.
Qed.

(** The page group of a matched descriptor always converts with [int]. *)
Lemma match_source_page (source g1 g2 : string) :
  match_source source = Some (g1, g2) ->
  Py.int g1 = Ok (Py.digits_value g1 0).
Proof.
  unfold match_source. intros H.
  destruct source as [|c0 [|c1 r]]; try discriminate.
  destruct (is_code 68 c0 && is_code 40 c1); [|discriminate].
  pose proof (take_digits_decimal r) as Hd.
  destruct (Py.take_digits r) as [digits r1]. simpl in Hd.
  destruct (truthy digits) eqn:Hne; [|discriminate].
  destruct r1 as [|c2 r2]; [discriminate|].
  destruct (is_code 44 c2); [|discriminate].
  destruct (take_body r2) as [[body rest]|]; [|discriminate].
  destruct (truthy body); [|discriminate].
  inversion H; subst. apply int_decimal; assumption.
Qed.

(** *** The pattern of the notebook cell *)

Lemma rstrip_ends_not_space (s : string) (c : ascii) :
  char_isspace c = false ->
  Py.rstrip (s ++ String c EmptyString) = (s ++ String c EmptyString)%string.
Proof.
  intros Hc. induction s as [|x s IH].
  - simpl. rewrite Hc. reflexivity.
  - change (Py.rstrip (String x s ++ String c EmptyString))
      with (match Py.rstrip (s ++ String c EmptyString) with
            | EmptyString => if char_isspace x then EmptyString else String x EmptyString
            | String a t => String x (String a t)
            end).
    rewrite IH. destruct s; reflexivity.
Qed.

Lemma int_digits_comma (digits rest : string) :
  all_chars char_isdecimal digits = true ->
  forall acc after_digit,
    Py.int_digits (digits ++ String ","%char rest) acc after_digit = None.
Proof.
  induction digits as [|c d IH]; intros H acc after_digit.
  - reflexivity.
  - simpl in H. apply andb_prop in H. destruct H as [Hc Hd].
    simpl. rewrite Hc. apply IH. exact Hd.
Qed.

(** What the pattern of the cell matches: group 2 is a non-empty run of
    digits and group 1 is group 2, a comma, group 3 and a backslash. *)
Lemma cell_match_source_groups (source g1 g2 g3 : string) :
  cell_match_source source = Some (g1, g2, g3) ->
  all_chars char_isdecimal g2 = true
  /\ truthy g2 = true
  /\ g1 = (g2 ++ String ","%char (g3 ++ backslash))%string.
Proof.
  unfold cell_match_source. intros H.
  destruct source as [|c0 [|c1 r]]; try discriminate.
  destruct (is_code 68 c0 && is_code 92 c1); [|discriminate].
  pose proof (take_digits_decimal r) as Hd.
  destruct (Py.take_digits r) as [digits r1]. simpl in Hd.
  destruct (truthy digits) eqn:Hne; [|discriminate].
  destruct r1 as [|c2 r2]; [discriminate|].
  destruct (is_code 44 c2); [|discriminate].
  destruct (upto_last_backslash (take_run r2)) as [body|]; [|discriminate].
  destruct (truthy body); [|discriminate].
  inversion H; subst. repeat split; assumption.
Qed.

(** The text that the cell passes to [int] holds a comma and a backslash:
    [int] raises on it. *)
Lemma cell_page_group_not_int (source g1 g2 g3 : string) :
  cell_match_source source = Some (g1, g2, g3) ->
  Py.int g1 = Raise (ValueError "invalid literal for int() with base 10").
Proof.
  intros H. destruct (cell_match_source_groups source g1 g2 g3 H) as [Hd [Hne ->]].
  destruct g2 as [|c d]; [discriminate|].
  pose proof Hd as Hd'. simpl in Hd'. apply andb_prop in Hd'. destruct Hd' as [Hc _].
  destruct (decimal_not_sign c Hc) as [Hp Hm].
  assert (Hstrip : Py.strip (String c d ++ String ","%char (g3 ++ backslash))
                   = (String c d ++ String ","%char (g3 ++ backslash))%string).
  { unfold Py.strip.
    replace (Py.lstrip (String c d ++ String ","%char (g3 ++ backslash)))
      with (String c d ++ String ","%char (g3 ++ backslash))%string
      by (simpl; rewrite (decimal_not_space c Hc); reflexivity).
    change (String ","%char (g3 ++ backslash))
      with (String ","%char g3 ++ backslash)%string.
    rewrite <- append_assoc. apply rstrip_ends_not_space. reflexivity. }
  unfold Py.int. rewrite Hstrip.
  change (String c d ++ String ","%char (g3 ++ backslash))%string
    with (String c (d ++ String ","%char (g3 ++ backslash))) at 1.
  cbv beta iota zeta. rewrite Hp, Hm.
  change (String c (d ++ String ","%char (g3 ++ backslash)))
    with (String c d ++ String ","%char (g3 ++ backslash))%string.
  rewrite (int_digits_comma (String c d) (g3 ++ backslash) Hd). reflexivity.
Qed.

(** The parser of the cell raises on every source text: either the pattern
    does not match, or [int] rejects group 1. *)
Lemma cell_parse_raises (float_of_str : string -> option float) (source : string) :
  Offsets.parse_source_coordinates float_of_str source
    = Raise (ValueError ("Invalid source format: " ++ source)%string)
  \/ Offsets.parse_source_coordinates float_of_str source
    = Raise (ValueError "invalid literal for int() with base 10").
Proof.
  unfold Offsets.parse_source_coordinates.
  destruct (cell_match_source source) as [[[g1 g2] g3]|] eqn:E; [right | left; reflexivity].
  rewrite (cell_page_group_not_int source g1 g2 g3 E). reflexivity.
Qed.

(** A descriptor [D(...)] is not matched by the pattern of the cell, which
    asks for a backslash where the descriptor has its parenthesis. *)
Lemma cell_match_source_descriptor (source g1 g2 : string) :
  match_source source = Some (g1, g2) -> cell_match_source source = None.
Proof.
  unfold match_source, cell_match_source. intros H.
  destruct source as [|c0 [|c1 r]]; try discriminate.
  destruct (is_code 68 c0); [|reflexivity].
  destruct (is_code 40 c1) eqn:E1; [|discriminate].
  assert (E2 : is_code 92 c1 = false).
  { unfold is_code in *. apply N.eqb_eq in E1. rewrite E1. reflexivity. }
  rewrite E2. reflexivity.
Qed.

(* ================================================================= *)
(** ** Geometry parser *)

(** C5: for a descriptor [D(...)] whose coordinate texts all convert, the
    plain engine returns, for eight coordinates, left = min(x1,x4),
    top = min(y1,y2), right = max(x2,x3), bottom = max(y3,y4); for four
    coordinates (left, top, width, height), right = left+width and
    bottom = top+height; and for any other count it raises the ValueError
    that reports an unexpected coordinate count.  The parser of the
    notebook cell does none of this: on the same descriptor it raises the
    ValueError that reports an invalid source format. *)
Theorem parse_source_coordinates_plain_and_cell
    (float_of_str : string -> option float)
    (source g1 g2 : string) (coords : list float) :
  match_source source = Some (g1, g2) ->
  floats_of float_of_str (Py.split "," g2) = Ok coords ->
  (exists page,
     Py.int g1 = Ok page
     /\ (forall x1 y1 x2 y2 x3 y3 x4 y4,
           coords = [x1; y1; x2; y2; x3; y3; x4; y4] ->
           Plain.parse_source_coordinates float_of_str source
             = Ok (page, Py.min x1 x4, Py.min y1 y2, Py.max x2 x3, Py.max y3 y4))
     /\ (forall left top width height,
           coords = [left; top; width; height] ->
           Plain.parse_source_coordinates float_of_str source
             = Ok (page, left, top, PrimFloat.add left width, PrimFloat.add top height))
     /\ (List.length coords <> 8%nat -> List.length coords <> 4%nat ->
           Plain.parse_source_coordinates float_of_str source
             = Raise (ValueError ("Unexpected coordinate count in source: " ++ source)%string)))
  /\ Offsets.parse_source_coordinates float_of_str source
     = Raise (ValueError ("Invalid source format: " ++ source)%string).
Proof.
  intros Hm Hf. split.
  - exists (Py.digits_value g1 0).
    pose proof (match_source_page source g1 g2 Hm) as Hp.
    split; [exact Hp|].
    unfold Plain.parse_source_coordinates.
    rewrite Hm, Hp, Hf. simpl Py.bind.
    split; [|split].
    + intros x1 y1 x2 y2 x3 y3 x4 y4 ->. reflexivity.
    + intros left top width height ->. reflexivity.
    + intros H8 H4.
      destruct coords as [|a [|b [|c [|d [|e [|f [|g [|h [|i rest]]]]]]]]];
        simpl in H8, H4; try reflexivity; congruence.
  - unfold Offsets.parse_source_coordinates.
    rewrite (cell_match_source_descriptor source g1 g2 Hm). reflexivity.
Qed.

Lemma parse_source_coordinates_plain_and_cell_witness :
  Plain.parse_source_coordinates float_of_decimal "D(1,1,2,3,4)"
    = Ok (1, 1%float, 2%float, 4%float, 6%float)
  /\ Offsets.parse_source_coordinates float_of_decimal "D(1,1,2,3,4)"
    = Raise (ValueError "Invalid source format: D(1,1,2,3,4)").
Proof.
  destruct (parse_source_coordinates_plain_and_cell float_of_decimal
              "D(1,1,2,3,4)" "1" "1,2,3,4" [1; 2; 3; 4]%float)
    as [[page [Hp [_ [H4 _]]]] Hcell].
  - vm_compute. reflexivity.
  - vm_compute. reflexivity.
  - split; [|exact Hcell].
    rewrite (H4 1%float 2%float 3%float 4%float eq_refl).
    vm_compute in Hp. inversion Hp; subst page. vm_compute. reflexivity.
Defined.

(** C6, as the code has it: on the quadrilateral (1,2,1,6,2,6,2,1) the
    parser returns left=1, top=2, right=2, bottom=6; on the axis-aligned
    box left=1, top=2, width=3, height=4 it returns right=4, bottom=6. *)
Theorem parse_source_coordinates_examples :
  Plain.parse_source_coordinates float_of_decimal "D(1,1,2,1,6,2,6,2,1)"
    = Ok (1, 1%float, 2%float, 2%float, 6%float)
  /\ Plain.parse_source_coordinates float_of_decimal "D(1,1,2,3,4)"
    = Ok (1, 1%float, 2%float, 4%float, 6%float).
Proof. split; vm_compute; reflexivity. Qed.

(** C6, as stated, fails: the quadrilateral (1,2,1,6,2,6,2,1) is not
    normalized to left=1, top=1, right=6, bottom=2. *)
Lemma parse_source_coordinates_quadrilateral_counterexample :
  Plain.parse_source_coordinates float_of_decimal "D(1,1,2,1,6,2,6,2,1)"
    <> Ok (1, 1%float, 1%float, 6%float, 2%float).
Proof.
  intros H.
  apply (f_equal (fun r => match r with
                           | Ok (_, _, top, _, _) => PrimFloat.ltb 1 top
                           | Raise _ => false
                           end)) in H.
  vm_compute in H. discriminate H.
Qed.

(* ================================================================= *)
(** ** Element classifier *)

(** On a trimmed text of decimal digits only, [is_line_number] answers
    whether its value lies in 1..99. *)
Lemma is_line_number_decimal (text : string) :
  all_chars char_isdecimal (Py.strip text) = true ->
  truthy (Py.strip text) = true ->
  Plain.is_line_number text
    = Ok ((1 <=? Py.digits_value (Py.strip text) 0)
          && (Py.digits_value (Py.strip text) 0 <=? 99)).
Proof.
  intros Hd Hne. unfold Plain.is_line_number, Py.isdigit.
  rewrite Hne. rewrite (all_chars_impl _ _ _ decimal_is_digit Hd). simpl.
  rewrite (int_decimal _ Hd Hne). reflexivity.
Qed.

(** On a trimmed text that [str.isdigit] rejects it answers [False]. *)
Lemma is_line_number_not_digits (text : string) :
  Py.isdigit (Py.strip text) = false -> Plain.is_line_number text = Ok false.
Proof. intros H. unfold Plain.is_line_number. rewrite H. reflexivity. Qed.

(** The two engines carry the same classifier. *)
Lemma is_line_number_same (text : string) :
  Offsets.is_line_number text = Plain.is_line_number text.
Proof. reflexivity. Qed.

(** C7: on the one-character text U+00B2 [is_line_number] does not return
    [False]: [str.isdigit] accepts the superscript and [int] then raises
    ValueError, in both engines. *)
Theorem is_line_number_raises_on_superscript :
  Plain.is_line_number superscript_two
    = Raise (ValueError "invalid literal for int() with base 10")
  /\ Offsets.is_line_number superscript_two
    = Raise (ValueError "invalid literal for int() with base 10").
Proof. split; vm_compute; reflexivity. Qed.

(* ================================================================= *)
(** ** Line grouper *)

(** The plain engine groups by the rule with the test
    [abs(y - anchor_y) <= 0.15]. *)
Lemma plain_group_walk (rest : list Plain.LineElement) :
  forall (groups : list (list Plain.LineElement)) (anchor : Plain.LineElement)
         (members : list Plain.LineElement)
         (groups' : list (list Plain.LineElement))
         (current_group : list Plain.LineElement) (current_y : float),
    Forall (fun e => Plain.same_line e (Plain.y_position anchor) = true) members ->
    fold_left Plain.group_step rest
              (groups, anchor :: members, Plain.y_position anchor)
      = (groups', current_group, current_y) ->
    current_group <> []
    /\ exists tail,
         groups' ++ [current_group] = groups ++ tail
         /\ grouped (fun e a => Plain.same_line e (Plain.y_position a))
                    (anchor :: members ++ rest) tail.
Proof.
  induction rest as [|e rest IH];
    intros groups anchor members groups' current_group current_y Hm H.
  - simpl in H. inversion H; subst. split; [discriminate|].
    exists [anchor :: members]. split; [reflexivity|].
    rewrite app_nil_r. apply grouped_last. exact Hm.
  - simpl in H. destruct (Plain.same_line e (Plain.y_position anchor)) eqn:Hc.
    + change ((anchor :: members) ++ [e]) with (anchor :: (members ++ [e])) in H.
      destruct (IH groups anchor (members ++ [e]) groups' current_group current_y)
        as [Hne [tail [Ht Hg]]]; [|exact H|].
      { apply Forall_app. split; [exact Hm | constructor; [exact Hc | constructor]]. }
      split; [exact Hne|]. exists tail. split; [exact Ht|].
      rewrite <- app_assoc in Hg. exact Hg.
    + destruct (IH (groups ++ [anchor :: members]) e [] groups' current_group current_y)
        as [Hne [tail [Ht Hg]]]; [constructor | exact H |].
      split; [exact Hne|]. exists ((anchor :: members) :: tail). split.
      * rewrite Ht, <- app_assoc. reflexivity.
      * apply grouped_next; assumption.
Qed.

Lemma plain_group_sorted_grouped (sorted_elements : list Plain.LineElement) :
  grouped (fun e a => Plain.same_line e (Plain.y_position a))
          sorted_elements (Plain.group_sorted sorted_elements).
Proof.
  unfold Plain.group_sorted. destruct sorted_elements as [|first rest].
  - constructor.
  - destruct (fold_left Plain.group_step rest ([], [first], Plain.y_position first))
      as [[groups current_group] current_y] eqn:E.
    destruct (plain_group_walk rest [] first [] groups current_group current_y
                (Forall_nil _) E) as [Hne [tail [Ht Hg]]].
    destruct current_group as [|c cs]; [congruence|].
    simpl in Ht, Hg. rewrite Ht. exact Hg.
Qed.

(** The offset-tracking engine groups by the rule with the strict test
    [abs(y - anchor_y) < 0.15]. *)
Lemma offsets_group_walk (rest : list Offsets.LineElement) :
  forall (groups : list (list Offsets.LineElement)) (anchor : Offsets.LineElement)
         (members : list Offsets.LineElement)
         (groups' : list (list Offsets.LineElement))
         (current_group : list Offsets.LineElement),
    Forall (fun e => Offsets.same_line e anchor = true) members ->
    fold_left Offsets.group_step rest (groups, anchor :: members)
      = (groups', current_group) ->
    current_group <> []
    /\ exists tail,
         groups' ++ [current_group] = groups ++ tail
         /\ grouped Offsets.same_line (anchor :: members ++ rest) tail.
Proof.
  induction rest as [|e rest IH];
    intros groups anchor members groups' current_group Hm H.
  - simpl in H. inversion H; subst. split; [discriminate|].
    exists [anchor :: members]. split; [reflexivity|].
    rewrite app_nil_r. apply grouped_last. exact Hm.
  - simpl in H. destruct (Offsets.same_line e anchor) eqn:Hc.
    + change ((anchor :: members) ++ [e]) with (anchor :: (members ++ [e])) in H.
      destruct (IH groups anchor (members ++ [e]) groups' current_group)
        as [Hne [tail [Ht Hg]]]; [|exact H|].
      { apply Forall_app. split; [exact Hm | constructor; [exact Hc | constructor]]. }
      split; [exact Hne|]. exists tail. split; [exact Ht|].
      rewrite <- app_assoc in Hg. exact Hg.
    + destruct (IH (groups ++ [anchor :: members]) e [] groups' current_group)
        as [Hne [tail [Ht Hg]]]; [constructor | exact H |].
      split; [exact Hne|]. exists ((anchor :: members) :: tail). split.
      * rewrite Ht, <- app_assoc. reflexivity.
      * apply grouped_next; assumption.
Qed.

Lemma offsets_group_sorted_grouped (sorted_elements : list Offsets.LineElement) :
  grouped Offsets.same_line sorted_elements (Offsets.group_sorted sorted_elements).
Proof.
  unfold Offsets.group_sorted. destruct sorted_elements as [|first rest].
  - constructor.
  - destruct (fold_left Offsets.group_step rest ([], [first]))
      as [groups current_group] eqn:E.
    destruct (offsets_group_walk rest [] first [] groups current_group
                (Forall_nil _) E) as [Hne [tail [Ht Hg]]].
    destruct current_group as [|c cs]; [congruence|].
    simpl in Ht, Hg. rewrite Ht. exact Hg.
Qed.

(** C8: two units whose top edges differ by exactly the tolerance 0.15
    share a group in the plain engine, whose test is [<=], and are split
    into two groups by the offset-tracking engine, whose test is [<]. *)
Theorem grouping_at_exact_tolerance :
  Plain.group_lines_by_vertical_position
      [plain_unit "a" 0 0; plain_unit "b" 0.15 1]
    = [[plain_unit "a" 0 0; plain_unit "b" 0.15 1]]
  /\ Offsets.group_lines_by_vertical_position
      [offsets_unit "a" 0 0; offsets_unit "b" 0.15 1]
    = [[offsets_unit "a" 0 0]; [offsets_unit "b" 0.15 1]].
Proof. split; vm_compute; reflexivity. Qed.

(* ================================================================= *)
(** ** Line assembler on the scenario page *)

(** C3: the page with the lines "1" and "INDEX" of the scenario, reflowed
    with separator " | ".  The plain engine gives the single output line
    "1 | INDEX".  The page function of the notebook cell gives the empty
    text and a page record without lines: neither descriptor passes its
    parser, so it extracts no unit.  Its loop over the rows, given the two
    units of the page (those the plain engine extracts), builds the line
    "1 | INDEX" with a word span [0,1] for "1" and a word span [4,9] for
    "INDEX". *)
Theorem scenario_page_reflow_plain_and_cell :
  Plain.reflow_page_with_line_numbers float_of_decimal scenario_page " | " = "1 | INDEX"
  /\ Offsets.reflow_page_with_line_numbers_and_offsets
       float_of_decimal scenario_page " | " 0
     = (EmptyString, Offsets.mkPageOffsetInfo 1 (Offsets.mkOffset 0 0) [])
  /\ map forget scenario_units
     = Plain.extract_lines_from_page float_of_decimal scenario_page
  /\ exists line,
       fold_left (Offsets.reflow_group " | ")
                 (Offsets.group_lines_by_vertical_position scenario_units) ([], [], 0)
         = (["1 | INDEX"], [line], 10)
       /\ Offsets.l_content line = "1 | INDEX"
       /\ map (fun w => (Offsets.w_content w,
                         Offsets.start (Offsets.w_offset w),
                         Offsets.end_ (Offsets.w_offset w)))
              (Offsets.l_words line)
          = [("1", 0, 1); ("INDEX", 4, 9)].
Proof.
  split; [vm_compute; reflexivity|].
  split; [vm_compute; reflexivity|].
  split; [vm_compute; reflexivity|].
  eexists. split; [vm_compute; reflexivity|].
  split; reflexivity.
Qed.

(* ================================================================= *)
(** ** Rows without content *)

Lemma insert_by_Forall {A : Type} (P : A -> Prop) (key : A -> float) (x : A) (l : list A) :
  P x -> Forall P l -> Forall P (Py.insert_by key x l).
Proof.
  intros Hx Hl. induction Hl as [|y r Hy Hr IH]; simpl.
  - constructor; [exact Hx | constructor].
  - destruct (PrimFloat.ltb (key y) (key x)).
    + constructor; assumption.
    + constructor; [exact Hx | constructor; assumption].
Qed.

Lemma sorted_Forall {A : Type} (P : A -> Prop) (key : A -> float) (l : list A) :
  Forall P l -> Forall P (Py.sorted key l).
Proof.
  intros H. induction H as [|x r Hx Hr IH]; simpl.
  - constructor.
  - apply insert_by_Forall; assumption.
Qed.

Lemma filter_nil_Forall {A : Type} (p : A -> bool) (l : list A) :
  filter p l = [] <-> Forall (fun x => p x = false) l.
Proof.
  induction l as [|x r IH]; simpl.
  - split; [constructor | reflexivity].
  - destruct (p x) eqn:Hx.
    + split; [discriminate|]. intros H. inversion H; congruence.
    + rewrite IH. split; [constructor; assumption|]. intros H. inversion H; assumption.
Qed.

Lemma filter_sorted_nil {A : Type} (p : A -> bool) (key : A -> float) (l : list A) :
  filter p l = [] -> filter p (Py.sorted key l) = [].
Proof.
  rewrite !filter_nil_Forall. apply sorted_Forall.
Qed.

Lemma fold_left_skip {A B : Type} (f : A -> B -> A) (x : B) (l1 l2 : list B) (a : A) :
  (forall a', f a' x = a') ->
  fold_left f (l1 ++ x :: l2) a = fold_left f (l1 ++ l2) a.
Proof.
  intros H. rewrite !fold_left_app. simpl. rewrite H. reflexivity.
Qed.

Lemma plain_row_dropped (separator : string) (output_lines : list string)
    (row : list Plain.LineElement) :
  filter (fun e => negb (Plain.is_line_number_flag e)) row = [] ->
  Plain.reflow_group separator output_lines row = output_lines.
Proof.
  intros H. unfold Plain.reflow_group.
  rewrite (filter_sorted_nil _ Plain.x_position row H). reflexivity.
Qed.

Lemma offsets_row_dropped (separator : string) (st : Offsets.page_state)
    (row : list Offsets.LineElement) :
  filter (fun e => negb (Offsets.is_line_number_flag e)) row = [] ->
  Offsets.reflow_group separator st row = st.
Proof.
  intros H. destruct st as [[output_lines infos] current_offset].
  unfold Offsets.reflow_group.
  rewrite (filter_sorted_nil _ Offsets.x_position row H). reflexivity.
Qed.

(** C4: a row with no content unit (for instance a lone margin number)
    leaves the loop state as it was, in both engines: no output line is
    added and, in the offset-tracking engine, no line record is added and
    the cursor keeps its value. *)
Theorem row_drop_law :
  (forall (separator : string) (output_lines : list string)
          (row : list Plain.LineElement),
      filter (fun e => negb (Plain.is_line_number_flag e)) row = [] ->
      Plain.reflow_group separator output_lines row = output_lines)
  /\ (forall (separator : string) (output_lines : list string)
             (line_offset_infos : list Offsets.LineOffsetInfo) (current_offset : Z)
             (row : list Offsets.LineElement),
      filter (fun e => negb (Offsets.is_line_number_flag e)) row = [] ->
      Offsets.reflow_group separator (output_lines, line_offset_infos, current_offset) row
        = (output_lines, line_offset_infos, current_offset)).
Proof.
  split.
  - intros. apply plain_row_dropped. assumption.
  - intros. apply offsets_row_dropped. assumption.
Qed.

Lemma row_drop_law_witness :
  Plain.reflow_group " | " ["a | b"] [Plain.mkLineElement "7" 1 0 1 true] = ["a | b"]
  /\ Offsets.reflow_group " | " (["a | b"], [], 6)
       [Offsets.mkLineElement "7" 1 0 1 true None None None] = (["a | b"], [], 6).
Proof.
  destruct row_drop_law as [Hp Ho]. split.
  - apply Hp. reflexivity.
  - apply Ho. reflexivity.
Defined.

(** A dropped row can be removed from the rows of a page without changing
    what the page loop computes. *)
Lemma dropped_row_is_invisible (separator : string) (st : Offsets.page_state)
    (before after : list (list Offsets.LineElement)) (row : list Offsets.LineElement) :
  filter (fun e => negb (Offsets.is_line_number_flag e)) row = [] ->
  fold_left (Offsets.reflow_group separator) (before ++ row :: after) st
    = fold_left (Offsets.reflow_group separator) (before ++ after) st.
Proof.
  intros H. apply fold_left_skip. intros st'. apply offsets_row_dropped. exact H.
Qed.

(* ================================================================= *)
(** ** Failures: local for a unit, fatal for the document *)

Lemma plain_extract_line_unparseable (float_of_str : string -> option float)
    (line : Line) (e : exn) :
  Plain.parse_source_coordinates float_of_str (line_source line) = Raise e ->
  Plain.extract_line float_of_str line = None.
Proof.
  intros H. unfold Plain.extract_line. rewrite H.
  destruct (negb (truthy (line_source line)) || negb (truthy (Py.strip (line_content line))));
    reflexivity.
Qed.

Lemma offsets_extract_line_unparseable (float_of_str : string -> option float)
    (line : Line) (e : exn) :
  Offsets.parse_source_coordinates float_of_str (line_source line) = Raise e ->
  Offsets.extract_line float_of_str line = None.
Proof.
  intros H. unfold Offsets.extract_line. rewrite H.
  destruct (negb (truthy (Py.strip (line_content line)))
            || Offsets.is_noise_element (Py.strip (line_content line)));
    [reflexivity|].
  destruct (negb (truthy (line_source line))); reflexivity.
Qed.

Lemma plain_extract_without (float_of_str : string -> option float)
    (number : option Z) (before after : list Line) (bad : Line) :
  Plain.extract_line float_of_str bad = None ->
  Plain.extract_lines_from_page float_of_str (mkPage number (before ++ bad :: after))
    = Plain.extract_lines_from_page float_of_str (mkPage number (before ++ after)).
Proof.
  intros H. unfold Plain.extract_lines_from_page. simpl lines.
  apply fold_left_skip. intros elements. rewrite H. reflexivity.
Qed.

(** A line whose descriptor the parser of the cell rejects is left out by
    the extraction of the cell too. *)
Lemma offsets_extract_without (float_of_str : string -> option float)
    (number : option Z) (before after : list Line) (bad : Line) (e : exn) :
  Offsets.parse_source_coordinates float_of_str (line_source bad) = Raise e ->
  Offsets.extract_lines_from_page float_of_str (mkPage number (before ++ bad :: after))
    = Offsets.extract_lines_from_page float_of_str (mkPage number (before ++ after)).
Proof.
  intros H. unfold Offsets.extract_lines_from_page. simpl lines.
  apply fold_left_skip. intros elements.
  rewrite (offsets_extract_line_unparseable float_of_str bad e H). reflexivity.
Qed.

(** In the notebook cell no descriptor passes the parser, so no line of a
    page gives a unit. *)
Lemma cell_extract_line_none (float_of_str : string -> option float) (line : Line) :
  Offsets.extract_line float_of_str line = None.
Proof.
  destruct (cell_parse_raises float_of_str (line_source line)) as [H | H];
    apply (offsets_extract_line_unparseable float_of_str line _ H).
Qed.

Lemma cell_extract_nothing (float_of_str : string -> option float) (page : Page) :
  Offsets.extract_lines_from_page float_of_str page = [].
Proof.
  unfold Offsets.extract_lines_from_page.
  induction (lines page) as [|line rest IH]; simpl; [reflexivity|].
  rewrite cell_extract_line_none. exact IH.
Qed.

(** C9: in the plain engine a line whose descriptor cannot be parsed (such
    as "D(1,bad)") is left out and the page is extracted and reflowed as if
    that line were not there; a document with no contents, or whose first
    content has no pages, makes [reflow_document] raise ValueError with its
    message; every other document is reflowed to a text. *)
Theorem geometry_failure_local_structure_failure_fatal
    (float_of_str : string -> option float) :
  (forall number before bad after separator e,
      Plain.parse_source_coordinates float_of_str (line_source bad) = Raise e ->
      Plain.extract_lines_from_page float_of_str (mkPage number (before ++ bad :: after))
        = Plain.extract_lines_from_page float_of_str (mkPage number (before ++ after))
      /\ Plain.reflow_page_with_line_numbers float_of_str
           (mkPage number (before ++ bad :: after)) separator
        = Plain.reflow_page_with_line_numbers float_of_str
           (mkPage number (before ++ after)) separator)
  /\ (float_of_str "bad" = None ->
      exists e, Plain.parse_source_coordinates float_of_str "D(1,bad)" = Raise e)
  /\ (forall json_data target_page separator,
      contents json_data = [] ->
      Plain.reflow_document float_of_str json_data target_page separator
        = Raise (ValueError "No contents found in JSON data"))
  /\ (forall json_data content rest target_page separator,
      contents json_data = content :: rest ->
      pages content = [] ->
      Plain.reflow_document float_of_str json_data target_page separator
        = Raise (ValueError "No pages found in document content"))
  /\ (forall json_data content rest target_page separator,
      contents json_data = content :: rest ->
      pages content <> [] ->
      exists text,
        Plain.reflow_document float_of_str json_data target_page separator = Ok text).
Proof.
  repeat split.
  - apply plain_extract_without.
    apply (plain_extract_line_unparseable float_of_str bad e). assumption.
  - unfold Plain.reflow_page_with_line_numbers.
    rewrite (plain_extract_without float_of_str number before after bad);
      [reflexivity|].
    apply (plain_extract_line_unparseable float_of_str bad e). assumption.
  - intros Hbad. eexists. unfold Plain.parse_source_coordinates.
    simpl. rewrite Hbad. reflexivity.
  - intros json_data target_page separator H. unfold Plain.reflow_document.
    rewrite H. reflexivity.
  - intros json_data content rest target_page separator H Hp.
    unfold Plain.reflow_document. rewrite H, Hp. reflexivity.
  - intros json_data content rest target_page separator H Hp.
    unfold Plain.reflow_document. rewrite H.
    destruct (pages content) as [|p ps]; [congruence|]. eexists. reflexivity.
Qed.

Lemma geometry_failure_local_structure_failure_fatal_witness :
  Plain.reflow_page_with_line_numbers float_of_decimal
    (mkPage (Some 1)
       ([mkLine "1" "D(1,0.1,0.5,0.3,0.5,0.3,0.9,0.1,0.9)" None]
        ++ mkLine "lost" "D(1,bad)" None
        :: [mkLine "INDEX" "D(1,0.5,0.5,2.1,0.5,2.1,0.9,0.5,0.9)" None])) " | "
  = "1 | INDEX"
  /\ (exists e, Plain.parse_source_coordinates float_of_decimal "D(1,bad)" = Raise e)
  /\ Plain.reflow_document float_of_decimal (mkDocument []) None " | "
     = Raise (ValueError "No contents found in JSON data")
  /\ Plain.reflow_document float_of_decimal (mkDocument [mkContent None []]) None " | "
     = Raise (ValueError "No pages found in document content")
  /\ exists text,
       Plain.reflow_document float_of_decimal scenario_document None " | " = Ok text.
Proof.
  destruct (geometry_failure_local_structure_failure_fatal float_of_decimal)
    as [Hlocal [Hbad [Hcontents [Hpages Hok]]]].
  split; [|split; [|split; [|split]]].
  - destruct (Hlocal (Some 1)
                [mkLine "1" "D(1,0.1,0.5,0.3,0.5,0.3,0.9,0.1,0.9)" None]
                (mkLine "lost" "D(1,bad)" None)
                [mkLine "INDEX" "D(1,0.5,0.5,2.1,0.5,2.1,0.9,0.5,0.9)" None]
                " | " (ValueError "could not convert string to float"))
      as [_ Hpage].
    + vm_compute. reflexivity.
    + rewrite Hpage. vm_compute. reflexivity.
  - apply Hbad. vm_compute. reflexivity.
  - apply Hcontents. reflexivity.
  - apply (Hpages _ (mkContent None []) []); reflexivity.
  - apply (Hok _ (mkContent (Some "document") [scenario_page]) []).
    + reflexivity.
    + discriminate.
Defined.

(* ================================================================= *)
(** ** Page markers of the plain engine *)

Lemma plain_document_step_marked (float_of_str : string -> option float)
    (separator : string) (output_parts : list string) (page : Page) :
  Plain.document_step float_of_str None separator output_parts page
    = output_parts ++ marked_page_parts float_of_str separator page.
Proof.
  unfold Plain.document_step, marked_page_parts, declared_number. simpl.
  destruct (truthy (Plain.reflow_page_with_line_numbers float_of_str page separator)).
  - rewrite <- app_assoc. reflexivity.
  - rewrite app_nil_r. reflexivity.
Qed.

Lemma plain_document_fold_marked (float_of_str : string -> option float)
    (separator : string) (ps : list Page) (output_parts : list string) :
  fold_left (Plain.document_step float_of_str None separator) ps output_parts
    = output_parts ++ flat_map (marked_page_parts float_of_str separator) ps.
Proof.
  revert output_parts. induction ps as [|p ps IH]; intros output_parts; simpl.
  - rewrite app_nil_r. reflexivity.
  - rewrite IH, plain_document_step_marked, <- app_assoc. reflexivity.
Qed.

(** C10: in the plain engine without a target page, a page adds to the
    output parts its marker line, its text and the blank part exactly when
    its reflowed text is not empty, and adds nothing otherwise; a page with
    no extractable element has an empty text; and the document text is the
    newline-join of what the pages add. *)
Theorem page_marker_iff_page_text
    (float_of_str : string -> option float) (separator : string) :
  (forall output_parts page,
      let text := Plain.reflow_page_with_line_numbers float_of_str page separator in
      (text = EmptyString ->
       Plain.document_step float_of_str None separator output_parts page = output_parts)
      /\ (text <> EmptyString ->
          Plain.document_step float_of_str None separator output_parts page
            = output_parts
              ++ [("<!-- Page " ++ Py.str_of_int (declared_number page) ++ " -->"
                   ++ newline)%string;
                  text; EmptyString]))
  /\ (forall page,
      Plain.extract_lines_from_page float_of_str page = [] ->
      Plain.reflow_page_with_line_numbers float_of_str page separator = EmptyString)
  /\ (forall json_data content rest,
      contents json_data = content :: rest ->
      pages content <> [] ->
      Plain.reflow_document float_of_str json_data None separator
        = Ok (Py.join newline
                (flat_map (marked_page_parts float_of_str separator) (pages content)))).
Proof.
  split; [|split].
  - intros output_parts page text. rewrite plain_document_step_marked.
    unfold marked_page_parts. fold text. split; intros H.
    + rewrite H. simpl. apply app_nil_r.
    + unfold truthy. apply String.eqb_neq in H. rewrite H. reflexivity.
  - intros page H. unfold Plain.reflow_page_with_line_numbers. rewrite H. reflexivity.
  - intros json_data content rest H Hp. unfold Plain.reflow_document. rewrite H.
    destruct (pages content) as [|p ps] eqn:E; [congruence|].
    rewrite plain_document_fold_marked. reflexivity.
Qed.

Lemma page_marker_iff_page_text_witness :
  Plain.document_step float_of_decimal None " | " ["x"] (mkPage (Some 2) []) = ["x"]
  /\ Plain.document_step float_of_decimal None " | " ["x"] scenario_page
     = ["x"; ("<!-- Page 1 -->" ++ newline)%string; "1 | INDEX"; ""]
  /\ Plain.reflow_document float_of_decimal scenario_document None " | "
     = Ok ("<!-- Page 1 -->" ++ newline ++ newline ++ "1 | INDEX" ++ newline)%string.
Proof.
  destruct (page_marker_iff_page_text float_of_decimal " | ") as [Hstep [_ Hdoc]].
  split; [|split].
  - apply (Hstep ["x"] (mkPage (Some 2) [])). reflexivity.
  - destruct (Hstep ["x"] scenario_page) as [_ H]. rewrite H.
    + vm_compute. reflexivity.
    + vm_compute. discriminate.
  - rewrite (Hdoc scenario_document (mkContent (Some "document") [scenario_page]) []).
    + vm_compute. reflexivity.
    + reflexivity.
    + discriminate.
Defined.

(* ================================================================= *)
(** ** The offset ledger *)

(** *** Ordered spans *)

Lemma chain_le (l : list Offsets.Offset) : forall lo hi, chain lo l hi -> lo <= hi.
Proof.
  induction l as [|s r IH]; simpl; intros lo hi H.
  - exact H.
  - destruct H as [H1 [H2 H3]]. apply IH in H3. lia.
Qed.

Lemma chain_weaken (l : list Offsets.Offset) :
  forall lo hi lo' hi', chain lo l hi -> lo' <= lo -> hi <= hi' -> chain lo' l hi'.
Proof.
  induction l as [|s r IH]; simpl; intros lo hi lo' hi' H Hlo Hhi.
  - lia.
  - destruct H as [H1 [H2 H3]]. repeat split; try lia.
    apply (IH _ _ _ _ H3); lia.
Qed.

Lemma chain_app (l1 l2 : list Offsets.Offset) :
  forall a b c, chain a l1 b -> chain b l2 c -> chain a (l1 ++ l2) c.
Proof.
  induction l1 as [|s r IH]; simpl; intros a b c H1 H2.
  - apply (chain_weaken l2 b c a c H2); lia.
  - destruct H1 as [Ha [Hs Hr]]. repeat split; try assumption.
    apply (IH _ _ _ Hr H2).
Qed.

Lemma chain_snoc (l : list Offsets.Offset) (s : Offsets.Offset) (a b : Z) :
  chain a l b -> b <= Offsets.start s -> Offsets.start s <= Offsets.end_ s ->
  chain a (l ++ [s]) (Offsets.end_ s).
Proof.
  intros H Hb Hs. apply (chain_app l [s] a b); [exact H|].
  simpl. lia.
Qed.

Lemma chain_non_overlapping (l : list Offsets.Offset) :
  forall lo hi, chain lo l hi -> non_overlapping l.
Proof.
  induction l as [|s r IH]; intros lo hi H i a b Ha Hb.
  - destruct i; discriminate.
  - simpl in H. destruct H as [_ [_ Hr]]. destruct i as [|i].
    + simpl in Ha, Hb. inversion Ha; subst a.
      destruct r as [|s' r']; [discriminate|].
      simpl in Hb. inversion Hb; subst b. simpl in Hr. lia.
    + simpl in Ha. apply (IH _ _ Hr i a b Ha). exact Hb.
Qed.


(** *** Text assembled from parts *)

Lemma concat_str_snoc (parts : list string) (x : string) :
  Py.concat_str (parts ++ [x]) = (Py.concat_str parts ++ x)%string.
Proof.
  induction parts as [|p r IH]; simpl.
  - apply append_empty_r.
  - rewrite IH, append_assoc. reflexivity.
Qed.

Lemma join_cons (sep : string) (l : string) (r : list string) :
  r <> [] -> Py.join sep (l :: r) = (l ++ sep ++ Py.join sep r)%string.
Proof. destruct r; [congruence | reflexivity]. Qed.

Lemma join_snoc (sep : string) (output_lines : list string) (x : string) :
  Py.join sep (output_lines ++ [x]) = (counted_text sep output_lines ++ x)%string.
Proof.
  unfold counted_text. induction output_lines as [|l r IH].
  - reflexivity.
  - change ((l :: r) ++ [x]) with (l :: (r ++ [x])).
    rewrite join_cons by (destruct r; discriminate).
    rewrite IH. simpl. rewrite !append_assoc. reflexivity.
Qed.

Lemma counted_text_snoc (sep : string) (output_lines : list string) (x : string) :
  counted_text sep (output_lines ++ [x])
    = (counted_text sep output_lines ++ x ++ sep)%string.
Proof.
  unfold counted_text. rewrite map_app. simpl map. apply concat_str_snoc.
Qed.

Lemma counted_text_join (sep : string) (output_lines : list string) :
  output_lines <> [] ->
  counted_text sep output_lines = (Py.join sep output_lines ++ sep)%string.
Proof.
  intros H. destruct (exists_last H) as [front [x ->]].
  rewrite counted_text_snoc, join_snoc, append_assoc. reflexivity.
Qed.

Lemma join_extends (sep : string) (output_lines : list string) (x : string) :
  exists suffix,
    Py.join sep (output_lines ++ [x]) = (Py.join sep output_lines ++ suffix)%string.
Proof.
  destruct output_lines as [|l r].
  - exists x. reflexivity.
  - exists (sep ++ x)%string. rewrite join_snoc, counted_text_join by discriminate.
    apply append_assoc.
Qed.

Lemma len_join_le_counted (sep : string) (output_lines : list string) :
  Py.len (Py.join sep output_lines) <= Py.len (counted_text sep output_lines).
Proof.
  destruct output_lines as [|l r].
  - simpl. unfold counted_text. simpl. lia.
  - rewrite counted_text_join by discriminate. rewrite len_append.
    pose proof (len_nonneg sep). lia.
Qed.

(** *** Round trips through a slice *)

Lemma located_extend (T suffix : string) (base : Z) (o : Offsets.Offset) (c : string) :
  located T base o c -> located (T ++ suffix)%string base o c.
Proof.
  intros [pre [post [HT [Hs He]]]]. exists pre, (post ++ suffix)%string.
  repeat split; try assumption.
  rewrite HT, !append_assoc. reflexivity.
Qed.

Lemma located_shift (T lead : string) (base : Z) (o : Offsets.Offset) (c : string) :
  located T (base + Py.len lead) o c -> located (lead ++ T)%string base o c.
Proof.
  intros [pre [post [HT [Hs He]]]]. exists (lead ++ pre)%string, post.
  repeat split; try assumption.
  - rewrite HT, !append_assoc. reflexivity.
  - rewrite len_append. lia.
Qed.

Lemma substring_middle (pre c post : string) :
  substring (String.length pre) (String.length c) (pre ++ c ++ post) = c.
Proof.
  induction pre as [|x pre IH]; simpl.
  - induction c as [|y c IHc]; simpl.
    + destruct post; reflexivity.
    + rewrite IHc. reflexivity.
  - exact IH.
Qed.

Lemma string_length_append (s t : string) :
  String.length (s ++ t) = (String.length s + String.length t)%nat.
Proof. induction s as [|c s IH]; simpl; [reflexivity | rewrite IH; reflexivity]. Qed.

(** A located content is what the slice at its span returns. *)
Lemma located_slice (T : string) (o : Offsets.Offset) (c : string) :
  located T 0 o c -> Py.slice T (Offsets.start o) (Offsets.end_ o) = c.
Proof.
  intros [pre [post [HT [Hs He]]]]. unfold Py.slice, Py.clamp_index.
  assert (HlenT : Py.len T = Py.len pre + Py.len c + Py.len post).
  { rewrite HT, !len_append. lia. }
  pose proof (len_nonneg pre). pose proof (len_nonneg c). pose proof (len_nonneg post).
  destruct (Z.ltb_spec (Offsets.start o) 0); [lia|].
  destruct (Z.ltb_spec (Offsets.end_ o) 0); [lia|].
  rewrite Z.min_l by lia. rewrite Z.min_l by lia.
  replace (Z.to_nat (Offsets.start o)) with (String.length pre)
    by (unfold Py.len in *; lia).
  replace (Z.to_nat (Offsets.end_ o - Offsets.start o)) with (String.length c)
    by (unfold Py.len in *; lia).
  rewrite HT. apply substring_middle.
Qed.

(** *** Building one line *)

Lemma line_inv_part (line_start : Z) (parts : list string)
    (ws : list Offsets.WordOffsetInfo) (cur : Z) (x : string) :
  line_inv line_start (parts, ws, cur) ->
  line_inv line_start (parts ++ [x], ws, cur + Py.len x).
Proof.
  intros [Hc [Hch Hloc]]. unfold line_inv. rewrite concat_str_snoc, len_append.
  repeat split.
  - lia.
  - apply (chain_weaken _ _ _ _ _ Hch); [lia | pose proof (len_nonneg x); lia].
  - eapply Forall_impl; [|exact Hloc]. intros w Hw. apply located_extend. exact Hw.
Qed.

Lemma line_inv_word (line_start : Z) (parts : list string)
    (ws : list Offsets.WordOffsetInfo) (cur : Z) (x b : string) (o : option Z) :
  line_inv line_start (parts, ws, cur) ->
  line_inv line_start
    (parts ++ [x],
     ws ++ [Offsets.mkWordOffsetInfo x (Offsets.mkOffset cur (cur + Py.len x)) b o],
     cur + Py.len x).
Proof.
  intros [Hc [Hch Hloc]]. unfold line_inv. rewrite concat_str_snoc, len_append.
  pose proof (len_nonneg x) as Hx.
  repeat split.
  - lia.
  - rewrite map_app. simpl map.
    apply (chain_snoc _ (Offsets.mkOffset cur (cur + Py.len x)) _ cur Hch); simpl; lia.
  - apply Forall_app. split.
    + eapply Forall_impl; [|exact Hloc]. intros w Hw. apply located_extend. exact Hw.
    + constructor; [|constructor]. simpl.
      exists (Py.concat_str parts), EmptyString. simpl.
      rewrite append_empty_r. repeat split. exact Hc.
Qed.

Lemma line_inv_init (line_start : Z) : line_inv line_start ([], [], line_start).
Proof.
  unfold line_inv. split; [|split].
  - change (Py.len (Py.concat_str [])) with 0. lia.
  - simpl. lia.
  - constructor.
Qed.

Lemma add_line_number_inv (line_start : Z) (separator : string)
    (line_numbers : list Offsets.LineElement) (st : Offsets.line_state) :
  line_inv line_start st ->
  line_inv line_start (Offsets.add_line_number separator line_numbers st).
Proof.
  intros H. destruct st as [[parts ws] cur].
  destruct line_numbers as [|first_number rest]; [exact H|].
  unfold Offsets.add_line_number.
  apply line_inv_part. apply line_inv_word. exact H.
Qed.

Lemma add_content_elements_inv (line_start : Z)
    (content_elements : list Offsets.LineElement) :
  forall (i : nat) (st : Offsets.line_state),
    line_inv line_start st ->
    line_inv line_start (Offsets.add_content_elements i content_elements st).
Proof.
  induction content_elements as [|elem rest IH]; intros i st H.
  - exact H.
  - destruct st as [[parts ws] cur]. simpl.
    destruct (Nat.ltb 0 i).
    + apply IH. apply line_inv_word. apply (line_inv_part _ _ _ _ " "%string). exact H.
    + apply IH. apply line_inv_word. exact H.
Qed.

(** *** The rows of a page *)

Lemma words_of_snoc (infos : list Offsets.LineOffsetInfo) (li : Offsets.LineOffsetInfo) :
  words_of (infos ++ [li]) = words_of infos ++ Offsets.l_words li.
Proof. unfold words_of. rewrite flat_map_app. simpl. rewrite app_nil_r. reflexivity. Qed.

Lemma line_located_extend (text suffix : string) (base : Z) (li : Offsets.LineOffsetInfo) :
  line_located text base li -> line_located (text ++ suffix)%string base li.
Proof.
  intros [Hl Hw]. split.
  - apply located_extend. exact Hl.
  - eapply Forall_impl; [|exact Hw]. intros w H. apply located_extend. exact H.
Qed.

Lemma line_located_shift (text lead : string) (base : Z) (li : Offsets.LineOffsetInfo) :
  line_located text (base + Py.len lead) li -> line_located (lead ++ text)%string base li.
Proof.
  intros [Hl Hw]. split.
  - apply located_shift. exact Hl.
  - eapply Forall_impl; [|exact Hw]. intros w H. apply located_shift. exact H.
Qed.

Lemma len_newline : Py.len newline = 1.
Proof. reflexivity. Qed.

Lemma reflow_group_inv (page_start : Z) (separator : string)
    (st : Offsets.page_state) (group : list Offsets.LineElement) :
  page_inv page_start st ->
  page_inv page_start (Offsets.reflow_group separator st group).
Proof.
  intros H. destruct st as [[out infos] cur]. unfold Offsets.reflow_group.
  destruct (filter (fun e => negb (Offsets.is_line_number_flag e))
                   (Py.sorted Offsets.x_position group)) as [|first_content rest] eqn:Ec;
    [exact H|].
  rewrite <- Ec. clear Ec.
  set (contents_ := filter (fun e => negb (Offsets.is_line_number_flag e))
                           (Py.sorted Offsets.x_position group)).
  set (numbers := filter Offsets.is_line_number_flag (Py.sorted Offsets.x_position group)).
  assert (Hline : line_inv cur
            (Offsets.add_content_elements 0 contents_
               (Offsets.add_line_number separator numbers ([], [], cur)))).
  { apply add_content_elements_inv. apply add_line_number_inv. apply line_inv_init. }
  destruct (Offsets.add_content_elements 0 contents_
              (Offsets.add_line_number separator numbers ([], [], cur)))
    as [[parts ws] e].
  destruct Hline as [He [Hws Hwloc]].
  destruct H as [Hcur [Hlines [Hwords Hloc]]].
  pose proof (len_join_le_counted newline out) as Hle.
  pose proof (len_nonneg (Py.concat_str parts)) as Hlen.
  unfold page_inv.
  rewrite counted_text_snoc, join_snoc, !len_append, len_newline.
  repeat split.
  - lia.
  - rewrite map_app. simpl map.
    replace (page_start + (Py.len (counted_text newline out) + Py.len (Py.concat_str parts)))
      with (Offsets.end_ (Offsets.mkOffset cur e)) by (simpl; lia).
    apply (chain_snoc _ _ _ (page_start + Py.len (Py.join newline out)) Hlines);
      simpl; lia.
  - rewrite words_of_snoc, map_app. simpl Offsets.l_words.
    apply (chain_app _ _ _ cur).
    + apply (chain_weaken _ _ _ _ _ Hwords); lia.
    + apply (chain_weaken _ _ _ _ _ Hws); lia.
  - apply Forall_app. split.
    + destruct (join_extends newline out (Py.concat_str parts)) as [suffix Hs].
      rewrite <- join_snoc, Hs.
      eapply Forall_impl; [|exact Hloc]. intros li Hli.
      apply line_located_extend. exact Hli.
    + constructor; [|constructor].
      apply line_located_shift. rewrite <- Hcur. split; simpl.
      * exists EmptyString, EmptyString.
        split; [simpl; rewrite append_empty_r; reflexivity|].
        split; simpl; [change (Py.len EmptyString) with 0; lia | lia].
      * exact Hwloc.
Qed.

Lemma page_inv_init (page_start : Z) : page_inv page_start ([], [], page_start).
Proof.
  unfold page_inv.
  change (Py.len (counted_text newline [])) with 0.
  change (Py.len (Py.join newline [])) with 0.
  simpl. repeat split; try lia. constructor.
Qed.

Lemma fold_left_inv {A B : Type} (P : A -> Prop) (f : A -> B -> A) (l : list B) :
  (forall a x, P a -> P (f a x)) -> forall a, P a -> P (fold_left f l a).
Proof.
  intros Hstep. induction l as [|x r IH]; intros a Ha; simpl.
  - exact Ha.
  - apply IH. apply Hstep. exact Ha.
Qed.

(** *** What the notebook cell returns *)

(** The page function of the cell extracts no unit and returns at its first
    exit. *)
Lemma cell_page_result (float_of_str : string -> option float) (page : Page)
    (separator : string) (current_offset : Z) :
  Offsets.reflow_page_with_line_numbers_and_offsets float_of_str page separator
    current_offset
  = (EmptyString,
     Offsets.mkPageOffsetInfo (declared_number page)
       (Offsets.mkOffset current_offset current_offset) []).
Proof.
  unfold Offsets.reflow_page_with_line_numbers_and_offsets.
  rewrite cell_extract_nothing. reflexivity.
Qed.

(** One step of the loop over the pages: the marker when no target page is
    given, and never a page text or a page record. *)
Lemma cell_document_step (float_of_str : string -> option float)
    (target_page : option Z) (separator : string)
    (output_parts : list string) (mapping : list Offsets.PageOffsetInfo)
    (current_offset : Z) (page : Page) :
  Offsets.document_step float_of_str target_page separator
    (output_parts, mapping, current_offset) page
  = match target_page with
    | Some _ => (output_parts, mapping, current_offset)
    | None => (output_parts ++ [cell_page_marker page], mapping,
               current_offset + Py.len (cell_page_marker page))
    end.
Proof.
  unfold Offsets.document_step. destruct target_page as [t|].
  - destruct (negb ((match pageNumber page with Some n => n | None => 0 end) =? t));
      [reflexivity|].
    rewrite cell_page_result. reflexivity.
  - cbv beta iota zeta. rewrite cell_page_result. reflexivity.
Qed.

Lemma cell_document_fold (float_of_str : string -> option float)
    (target_page : option Z) (separator : string) (ps : list Page) :
  forall (output_parts : list string) (mapping : list Offsets.PageOffsetInfo)
         (current_offset : Z),
    fold_left (Offsets.document_step float_of_str target_page separator) ps
              (output_parts, mapping, current_offset)
    = match target_page with
      | Some _ => (output_parts, mapping, current_offset)
      | None => (output_parts ++ map cell_page_marker ps, mapping,
                 current_offset + Py.len (Py.concat_str (map cell_page_marker ps)))
      end.
Proof.
  induction ps as [|p ps IH]; intros output_parts mapping current_offset.
  - simpl. destruct target_page.
    + reflexivity.
    + rewrite app_nil_r. change (Py.len EmptyString) with 0.
      rewrite Z.add_0_r. reflexivity.
  - cbn [fold_left]. rewrite cell_document_step. destruct target_page as [t|].
    + apply IH.
    + rewrite IH. cbn [map Py.concat_str].
      rewrite <- app_assoc, len_append, Z.add_assoc. reflexivity.
Qed.

(** The document function of the cell: the markers joined by the separator
    of the cell when no target page is given, the empty text otherwise, and
    in both cases a mapping without pages. *)
Lemma cell_document_result (float_of_str : string -> option float)
    (json_data : Document) (target_page : option Z) (separator : string) :
  pages_of json_data <> [] ->
  Offsets.reflow_document_with_offsets float_of_str json_data target_page separator
  = Ok (match target_page with
        | None => Py.join cell_newline (map cell_page_marker (pages_of json_data))
        | Some _ => EmptyString
        end,
        Offsets.mkOffsetMapping []).
Proof.
  unfold Offsets.reflow_document_with_offsets, pages_of. intros H.
  destruct (contents json_data) as [|content rest]; [congruence|].
  destruct (pages content) as [|p ps] eqn:Ep; [congruence|].
  rewrite <- Ep. rewrite cell_document_fold.
  destruct target_page; reflexivity.
Qed.


(** *** Order of the spans *)



(** *** Spans against the returned text *)



(* ================================================================= *)
(** ** Further properties of the classifier and of the parser *)

Lemma digit_is_alnum (c : ascii) : char_isdigit c = true -> char_isalnum c = true.
Proof.
  destruct c as [b0 b1 b2 b3 b4 b5 b6 b7].
  destruct b0, b1, b2, b3, b4, b5, b6, b7; vm_compute; intros H;
    first [reflexivity | discriminate H].
Qed.

Lemma middle_dot_not_alnum : char_isalnum (ascii_of_nat 183) = false.
Proof. reflexivity. Qed.

(** X1: [is_noise_element] (the same in both engines) answers [True]
    exactly when the trimmed content is a single character that is not
    alphanumeric; the glyph list adds no further text. *)
Theorem noise_is_one_non_alphanumeric_character (content : string) :
  Offsets.is_noise_element content = Plain.is_noise_element content
  /\ (Plain.is_noise_element content = true <->
      exists c, Py.strip content = String c EmptyString /\ char_isalnum c = false).
Proof.
  split; [reflexivity|].
  unfold Plain.is_noise_element.
  destruct (Py.strip content) as [|c [|d r]].
  - split; [discriminate|]. intros [c [H _]]. discriminate.
  - assert (E : ((String c EmptyString =? middle_dot)%string
                 || ((Py.len (String c EmptyString) =? 1)
                     && negb (Py.isalnum (String c EmptyString))))
                = negb (char_isalnum c)).
    { unfold Py.isalnum, truthy, Py.len, middle_dot. simpl. rewrite andb_true_r.
      destruct (Ascii.eqb_spec c (ascii_of_nat 183)) as [->|Hn]; reflexivity. }
    rewrite E. split.
    + intros H. exists c. split; [reflexivity|]. apply negb_true_iff in H. exact H.
    + intros [c' [Hc Ha]]. inversion Hc; subst c'. rewrite Ha. reflexivity.
  - split.
    + intros H. exfalso. apply orb_prop in H. destruct H as [H | H].
      * apply String.eqb_eq in H. unfold middle_dot in H. discriminate.
      * apply andb_prop in H. destruct H as [H _].
        apply Z.eqb_eq in H. unfold Py.len in H. simpl String.length in H. lia.
    + intros [c' [Hc _]]. discriminate.
Qed.

(** X2: a text that [is_line_number] accepts is never noise, and its
    trimmed form converts with [int] to a number from 1 to 99. *)
Theorem line_number_is_never_noise (content : string) :
  Plain.is_line_number content = Ok true ->
  Plain.is_noise_element content = false
  /\ exists n, Py.int (Py.strip content) = Ok n /\ 1 <= n <= 99.
Proof.
  unfold Plain.is_line_number. intros H.
  destruct (Py.isdigit (Py.strip content)) eqn:Hd; [|discriminate].
  destruct (Py.int (Py.strip content)) as [n|e] eqn:Hi; [|discriminate].
  simpl in H. inversion H as [Hn]. apply andb_prop in Hn. destruct Hn as [H1 H99].
  apply Z.leb_le in H1. apply Z.leb_le in H99.
  split; [|exists n; split; [reflexivity | lia]].
  unfold Plain.is_noise_element.
  unfold Py.isdigit in Hd. apply andb_prop in Hd. destruct Hd as [Hne Hall].
  apply orb_false_iff. split.
  - apply String.eqb_neq. intros E. rewrite E in Hall. discriminate Hall.
  - unfold Py.isalnum. rewrite Hne.
    rewrite (all_chars_impl _ _ _ digit_is_alnum Hall). simpl. apply andb_false_r.
Qed.

Lemma line_number_is_never_noise_witness :
  Plain.is_noise_element " 42 " = false
  /\ exists n, Py.int (Py.strip " 42 ") = Ok n /\ 1 <= n <= 99.
Proof. apply line_number_is_never_noise. vm_compute. reflexivity. Defined.

Lemma take_digits_app (tail : string) (r : string) :
  forall d c r1,
    Py.take_digits r = (d, String c r1) ->
    Py.take_digits (r ++ tail) = (d, (String c r1 ++ tail)%string).
Proof.
  induction r as [|x r IH]; intros d c r1 H; simpl in H.
  - discriminate.
  - simpl. destruct (char_isdecimal x) eqn:Hx.
    + destruct (Py.take_digits r) as [d' t] eqn:E. inversion H; subst.
      rewrite (IH d' c r1 eq_refl). reflexivity.
    + inversion H; subst. reflexivity.
Qed.

Lemma take_body_app (tail : string) (r : string) :
  forall b t,
    take_body r = Some (b, t) ->
    take_body (r ++ tail) = Some (b, (t ++ tail)%string).
Proof.
  induction r as [|x r IH]; intros b t H; simpl in H.
  - discriminate.
  - simpl. destruct (is_code 41 x).
    + inversion H; subst. reflexivity.
    + destruct (take_body r) as [[b' t']|] eqn:E; [|discriminate].
      inversion H; subst. rewrite (IH b' t eq_refl). reflexivity.
Qed.

Lemma match_source_app (source tail g1 g2 : string) :
  match_source source = Some (g1, g2) ->
  match_source (source ++ tail) = Some (g1, g2).
Proof.
  unfold match_source. intros H.
  destruct source as [|c0 [|c1 r]]; try discriminate.
  destruct (is_code 68 c0 && is_code 40 c1) eqn:E0; [|discriminate].
  destruct (Py.take_digits r) as [digits r1] eqn:Ed.
  destruct (truthy digits) eqn:Hne; [|discriminate].
  destruct r1 as [|c2 r2]; [discriminate|].
  destruct (is_code 44 c2) eqn:E2; [|discriminate].
  destruct (take_body r2) as [[body rest]|] eqn:Eb; [|discriminate].
  destruct (truthy body) eqn:E3; [|discriminate].
  change ((String c0 (String c1 r) ++ tail)%string)
    with (String c0 (String c1 (r ++ tail))).
  cbv beta iota. rewrite E0, (take_digits_app tail r digits c2 r2 Ed), Hne.
  change ((String c2 r2 ++ tail)%string) with (String c2 (r2 ++ tail)).
  cbv beta iota. rewrite E2, (take_body_app tail r2 body rest Eb), E3. exact H.
Qed.

(** X3: whatever follows the closing parenthesis of a descriptor is
    ignored by the plain engine: if a descriptor parses, the same text
    followed by any tail parses to the same page number and rectangle. *)
Theorem parse_ignores_text_after_descriptor
    (float_of_str : string -> option float) (source tail : string)
    (page : Z) (left top right bottom : float) :
  Plain.parse_source_coordinates float_of_str source
    = Ok (page, left, top, right, bottom) ->
  Plain.parse_source_coordinates float_of_str (source ++ tail)
    = Ok (page, left, top, right, bottom).
Proof.
  unfold Plain.parse_source_coordinates.
  destruct (match_source source) as [[g1 g2]|] eqn:Hm; [|discriminate].
  rewrite (match_source_app source tail g1 g2 Hm).
  destruct (Py.int g1) as [n|e]; [|discriminate]. simpl Py.bind.
  destruct (floats_of float_of_str (Py.split "," g2)) as [coords|e]; [|discriminate].
  simpl Py.bind.
  destruct coords as [|a [|b [|c [|d [|e [|f [|g [|h [|i rest]]]]]]]]];
    try discriminate; intros H; inversion H; subst; reflexivity.
Qed.

Lemma parse_ignores_text_after_descriptor_witness :
  Plain.parse_source_coordinates float_of_decimal ("D(1,1,2,3,4)" ++ " and more")
    = Ok (1, 1%float, 2%float, 4%float, 6%float).
Proof.
  apply parse_ignores_text_after_descriptor. vm_compute. reflexivity.
Defined.

(* ================================================================= *)
(** ** Further properties of the extraction *)

Lemma fold_left_collect {A B : Type} (f : A -> option B) (l : list A) :
  forall acc : list B,
    fold_left (fun acc x => match f x with
                            | Some y => acc ++ [y]
                            | None => acc
                            end) l acc
    = acc ++ flat_map (fun x => match f x with
                                | Some y => [y]
                                | None => []
                                end) l.
Proof.
  induction l as [|x l IH]; intros acc; simpl.
  - rewrite app_nil_r. reflexivity.
  - rewrite IH. destruct (f x); simpl.
    + rewrite <- app_assoc. reflexivity.
    + reflexivity.
Qed.

Lemma plain_extract_collect (float_of_str : string -> option float) (page : Page) :
  Plain.extract_lines_from_page float_of_str page
    = flat_map (fun line => match Plain.extract_line float_of_str line with
                            | Some e => [e]
                            | None => []
                            end) (lines page).
Proof.
  unfold Plain.extract_lines_from_page.
  rewrite (fold_left_collect (Plain.extract_line float_of_str)). reflexivity.
Qed.

Lemma plain_extract_line_some (float_of_str : string -> option float)
    (line : Line) (e : Plain.LineElement) :
  Plain.extract_line float_of_str line = Some e ->
  Plain.content e = Py.strip (line_content line)
  /\ truthy (Plain.content e) = true
  /\ Plain.is_noise_element (Plain.content e) = false
  /\ Plain.is_line_number (Plain.content e) = Ok (Plain.is_line_number_flag e)
  /\ exists right bottom,
       Plain.parse_source_coordinates float_of_str (line_source line)
         = Ok (Plain.page_number e, Plain.x_position e, Plain.y_position e, right, bottom).
Proof.
  unfold Plain.extract_line. intros H.
  destruct (truthy (line_source line)); [|discriminate].
  destruct (truthy (Py.strip (line_content line))) eqn:Hc; [|discriminate].
  simpl in H.
  destruct (Plain.parse_source_coordinates float_of_str (line_source line))
    as [[[[[pn lx] ty] rx] by_]|err]; [|discriminate].
  destruct (Plain.is_noise_element (Py.strip (line_content line))) eqn:Hn; [discriminate|].
  destruct (Plain.is_line_number (Py.strip (line_content line))) as [flag|err] eqn:Hl;
    [|discriminate].
  inversion H; subst; clear H. simpl.
  repeat split; try assumption. exists rx, by_. reflexivity.
Qed.

(** X4: every unit that the plain engine extracts from a page comes from
    one of the page's lines: its content is that line's trimmed content,
    which is not empty and not noise; its flag is the answer of
    [is_line_number] on it; and its page number, left and top are those
    parsed from the line's descriptor. *)
Theorem extracted_units_are_classified
    (float_of_str : string -> option float) (page : Page) :
  Forall (fun e =>
            exists line,
              In line (lines page)
              /\ Plain.content e = Py.strip (line_content line)
              /\ truthy (Plain.content e) = true
              /\ Plain.is_noise_element (Plain.content e) = false
              /\ Plain.is_line_number (Plain.content e) = Ok (Plain.is_line_number_flag e)
              /\ exists right bottom,
                   Plain.parse_source_coordinates float_of_str (line_source line)
                     = Ok (Plain.page_number e, Plain.x_position e, Plain.y_position e,
                           right, bottom))
         (Plain.extract_lines_from_page float_of_str page).
Proof.
  rewrite plain_extract_collect. apply Forall_forall. intros e He.
  apply in_flat_map in He. destruct He as [line [Hin He]].
  destruct (Plain.extract_line float_of_str line) as [e'|] eqn:E; [|contradiction].
  destruct He as [He | []]. subst e'.
  exists line. split; [exact Hin|].
  apply (plain_extract_line_some float_of_str line e E).
Qed.

(** X5: in the notebook cell [parse_source_coordinates] raises ValueError
    on every source text, either because the pattern (which asks for a
    backslash after the D) does not match or because [int] is given the
    whole of group 1, with its comma; so [extract_lines_from_page] of the
    cell returns no unit, whatever the page. *)
Theorem cell_parser_raises_on_every_source
    (float_of_str : string -> option float) (source : string) (page : Page) :
  (Offsets.parse_source_coordinates float_of_str source
     = Raise (ValueError ("Invalid source format: " ++ source)%string)
   \/ Offsets.parse_source_coordinates float_of_str source
     = Raise (ValueError "invalid literal for int() with base 10"))
  /\ Offsets.extract_lines_from_page float_of_str page = [].
Proof.
  split; [apply cell_parse_raises | apply cell_extract_nothing].
Qed.

(* ================================================================= *)
(** ** Further properties of the grouping *)

Lemma insert_by_permutation {A : Type} (key : A -> float) (x : A) (l : list A) :
  Permutation (Py.insert_by key x l) (x :: l).
Proof.
  induction l as [|y r IH]; simpl.
  - apply Permutation_refl.
  - destruct (PrimFloat.ltb (key y) (key x)).
    + apply Permutation_trans with (y :: x :: r).
      * apply perm_skip. exact IH.
      * apply perm_swap.
    + apply Permutation_refl.
Qed.

Lemma sorted_permutation {A : Type} (key : A -> float) (l : list A) :
  Permutation (Py.sorted key l) l.
Proof.
  induction l as [|x r IH]; simpl.
  - apply perm_nil.
  - apply Permutation_trans with (x :: Py.sorted key r).
    + apply insert_by_permutation.
    + apply perm_skip. exact IH.
Qed.

Lemma grouped_concat {A : Type} (close : A -> A -> bool) (l : list A)
    (groups : list (list A)) :
  grouped close l groups ->
  List.concat groups = l /\ Forall (fun g => g <> []) groups.
Proof.
  intros H. induction H as [|anchor members Hm|anchor members next rest groups Hm Hc Hg IH].
  - split; [reflexivity | constructor].
  - split; [simpl; rewrite app_nil_r; reflexivity|].
    constructor; [discriminate | constructor].
  - destruct IH as [Hcat Hne]. split.
    + simpl. rewrite Hcat. reflexivity.
    + constructor; [discriminate | exact Hne].
Qed.

Lemma plain_groups_partition (elements : list Plain.LineElement) :
  Permutation (List.concat (Plain.group_lines_by_vertical_position elements)) elements
  /\ Forall (fun g => g <> []) (Plain.group_lines_by_vertical_position elements).
Proof.
  unfold Plain.group_lines_by_vertical_position.
  destruct (grouped_concat _ _ _
              (plain_group_sorted_grouped (Py.sorted Plain.y_position elements)))
    as [Hcat Hne].
  split; [|exact Hne]. rewrite Hcat. apply sorted_permutation.
Qed.

Lemma offsets_groups_partition (elements : list Offsets.LineElement) :
  Permutation (List.concat (Offsets.group_lines_by_vertical_position elements)) elements
  /\ Forall (fun g => g <> []) (Offsets.group_lines_by_vertical_position elements).
Proof.
  unfold Offsets.group_lines_by_vertical_position.
  destruct (grouped_concat _ _ _
              (offsets_group_sorted_grouped (Py.sorted Offsets.y_position elements)))
    as [Hcat Hne].
  split; [|exact Hne]. rewrite Hcat. apply sorted_permutation.
Qed.

(** X6: in both engines the groups are a partition of the units: taken
    together, in order, the groups hold every unit exactly once (they are
    the units sorted by top edge, cut into consecutive runs), and no group
    is empty. *)
Theorem groups_partition_the_units :
  (forall elements : list Plain.LineElement,
      List.concat (Plain.group_lines_by_vertical_position elements)
        = Py.sorted Plain.y_position elements
      /\ Permutation (List.concat (Plain.group_lines_by_vertical_position elements)) elements
      /\ Forall (fun g => g <> []) (Plain.group_lines_by_vertical_position elements))
  /\ (forall elements : list Offsets.LineElement,
      List.concat (Offsets.group_lines_by_vertical_position elements)
        = Py.sorted Offsets.y_position elements
      /\ Permutation (List.concat (Offsets.group_lines_by_vertical_position elements)) elements
      /\ Forall (fun g => g <> []) (Offsets.group_lines_by_vertical_position elements)).
Proof.
  split; intros elements.
  - split.
    + apply (grouped_concat _ _ _
               (plain_group_sorted_grouped (Py.sorted Plain.y_position elements))).
    + apply plain_groups_partition.
  - split.
    + apply (grouped_concat _ _ _
               (offsets_group_sorted_grouped (Py.sorted Offsets.y_position elements))).
    + apply offsets_groups_partition.
Qed.

(** X7: the offset-tracking engine forms its groups by the anchor rule with
    the strict test: walking the units sorted by top edge, a unit stays in
    the open group when [abs(y - anchor.y) < 0.15] for the group's first
    unit, and otherwise closes it and opens the next group as its anchor.
    The plain engine follows the same rule with [<=]. *)
Theorem grouping_follows_the_anchor_rule :
  (forall elements : list Offsets.LineElement,
      grouped Offsets.same_line (Py.sorted Offsets.y_position elements)
              (Offsets.group_lines_by_vertical_position elements))
  /\ (forall elements : list Plain.LineElement,
      grouped (fun e anchor => Plain.same_line e (Plain.y_position anchor))
              (Py.sorted Plain.y_position elements)
              (Plain.group_lines_by_vertical_position elements)).
Proof.
  split; intros elements.
  - apply offsets_group_sorted_grouped.
  - apply plain_group_sorted_grouped.
Qed.

(* ================================================================= *)
(** ** Further properties of the line assembler *)

Lemma insert_by_map (x : Offsets.LineElement) (l : list Offsets.LineElement) :
  Py.insert_by Plain.x_position (forget x) (map forget l)
    = map forget (Py.insert_by Offsets.x_position x l).
Proof.
  induction l as [|y r IH]; simpl.
  - reflexivity.
  - destruct (PrimFloat.ltb (Offsets.x_position y) (Offsets.x_position x)); simpl.
    + rewrite IH. reflexivity.
    + reflexivity.
Qed.

Lemma sorted_map_forget (l : list Offsets.LineElement) :
  Py.sorted Plain.x_position (map forget l)
    = map forget (Py.sorted Offsets.x_position l).
Proof.
  induction l as [|x r IH]; simpl.
  - reflexivity.
  - rewrite IH. apply insert_by_map.
Qed.

Lemma filter_map_forget (p : Plain.LineElement -> bool) (l : list Offsets.LineElement) :
  filter p (map forget l) = map forget (filter (fun e => p (forget e)) l).
Proof.
  induction l as [|x r IH]; simpl.
  - reflexivity.
  - destruct (p (forget x)); simpl; rewrite IH; reflexivity.
Qed.

Lemma join_space_cons (c : string) (r : list string) :
  Py.join " " (c :: r)
    = (c ++ Py.concat_str (map (fun x => (" " ++ x)%string) r))%string.
Proof.
  revert c. induction r as [|d r IH]; intros c.
  - simpl. symmetry. apply append_empty_r.
  - rewrite join_cons by discriminate. rewrite IH. reflexivity.
Qed.

(** The parts and the words that the content loop adds after the first
    unit. *)
Lemma add_content_elements_rest (content_elements : list Offsets.LineElement) :
  forall (i : nat) (parts : list string) (ws : list Offsets.WordOffsetInfo) (cur : Z),
    exists ws' cur',
      Offsets.add_content_elements (S i) content_elements (parts, ws, cur)
        = (parts ++ flat_map (fun e => [" "%string; Offsets.content e]) content_elements,
           ws', cur')
      /\ map Offsets.w_content ws'
         = map Offsets.w_content ws ++ map Offsets.content content_elements.
Proof.
  induction content_elements as [|elem rest IH]; intros i parts ws cur.
  - exists ws, cur. simpl. rewrite !app_nil_r. split; reflexivity.
  - simpl Offsets.add_content_elements.
    destruct (IH (S i) ((parts ++ [" "%string]) ++ [Offsets.content elem])
                 (ws ++ [Offsets.mkWordOffsetInfo (Offsets.content elem)
                           (Offsets.mkOffset (cur + 1)
                              (cur + 1 + Py.len (Offsets.content elem)))
                           (Offsets.or_empty (Offsets.bbox elem))
                           (Offsets.original_offset elem)])
                 (cur + 1 + Py.len (Offsets.content elem)))
      as [ws' [cur' [Heq Hw]]].
    exists ws', cur'. split.
    + rewrite Heq. simpl flat_map. rewrite <- !app_assoc. reflexivity.
    + rewrite Hw, map_app. simpl. rewrite <- app_assoc. reflexivity.
Qed.

Lemma concat_str_app (l1 l2 : list string) :
  Py.concat_str (l1 ++ l2) = (Py.concat_str l1 ++ Py.concat_str l2)%string.
Proof.
  induction l1 as [|x r IH]; simpl.
  - reflexivity.
  - rewrite IH, append_assoc. reflexivity.
Qed.

Lemma concat_str_spaced (elems : list Offsets.LineElement) :
  Py.concat_str (flat_map (fun e => [" "%string; Offsets.content e]) elems)
    = Py.concat_str (map (fun x => (" " ++ x)%string) (map Offsets.content elems)).
Proof.
  induction elems as [|e r IH]; simpl.
  - reflexivity.
  - rewrite IH. reflexivity.
Qed.

(** What the offset-tracking engine builds for a row that has content:
    the line text is the row text, and the words are the leftmost number,
    if any, followed by the content units. *)
Lemma offsets_line_of_row (separator : string) (numbers : list Offsets.LineElement)
    (first_content : Offsets.LineElement) (others : list Offsets.LineElement) (cur : Z) :
  exists parts ws cur',
    Offsets.add_content_elements 0 (first_content :: others)
      (Offsets.add_line_number separator numbers ([], [], cur)) = (parts, ws, cur')
    /\ Py.concat_str parts
       = row_text separator (map Offsets.content numbers)
                  (map Offsets.content (first_content :: others))
    /\ map Offsets.w_content ws
       = firstn 1 (map Offsets.content numbers)
         ++ map Offsets.content (first_content :: others).
Proof.
  destruct numbers as [|number more].
  - simpl Offsets.add_line_number. simpl Offsets.add_content_elements.
    destruct (add_content_elements_rest others 0
                ([] ++ [Offsets.content first_content])
                ([] ++ [Offsets.mkWordOffsetInfo (Offsets.content first_content)
                          (Offsets.mkOffset cur (cur + Py.len (Offsets.content first_content)))
                          (Offsets.or_empty (Offsets.bbox first_content))
                          (Offsets.original_offset first_content)])
                (cur + Py.len (Offsets.content first_content)))
      as [ws' [cur' [Heq Hw]]].
    eexists. eexists. eexists. split; [exact Heq|]. split.
    + rewrite concat_str_app, concat_str_spaced. unfold row_text. simpl map.
      rewrite join_space_cons. simpl. rewrite append_empty_r. reflexivity.
    + rewrite Hw. reflexivity.
  - simpl Offsets.add_line_number. simpl Offsets.add_content_elements.
    set (c1 := cur + Py.len (Offsets.content number) + Py.len separator).
    destruct (add_content_elements_rest others 0
                ((([] ++ [Offsets.content number]) ++ [separator])
                 ++ [Offsets.content first_content])
                (([] ++ [Offsets.mkWordOffsetInfo (Offsets.content number)
                           (Offsets.mkOffset cur (cur + Py.len (Offsets.content number)))
                           (Offsets.or_empty (Offsets.bbox number))
                           (Offsets.original_offset number)])
                 ++ [Offsets.mkWordOffsetInfo (Offsets.content first_content)
                       (Offsets.mkOffset c1 (c1 + Py.len (Offsets.content first_content)))
                       (Offsets.or_empty (Offsets.bbox first_content))
                       (Offsets.original_offset first_content)])
                (c1 + Py.len (Offsets.content first_content)))
      as [ws' [cur' [Heq Hw]]].
    eexists. eexists. eexists. split; [exact Heq|]. split.
    + rewrite concat_str_app, concat_str_spaced. unfold row_text. simpl map.
      rewrite join_space_cons. simpl. rewrite append_empty_r, !append_assoc.
      reflexivity.
    + rewrite Hw. reflexivity.
Qed.

Lemma plain_reflow_group_text (separator : string) (output_lines : list string)
    (row : list Plain.LineElement) :
  Plain.reflow_group separator output_lines row
    = match filter (fun e => negb (Plain.is_line_number_flag e))
                   (Py.sorted Plain.x_position row) with
      | [] => output_lines
      | contents =>
          output_lines
          ++ [row_text separator
                (map Plain.content
                     (filter Plain.is_line_number_flag (Py.sorted Plain.x_position row)))
                (map Plain.content contents)]
      end.
Proof.
  unfold Plain.reflow_group, row_text.
  destruct (filter (fun e => negb (Plain.is_line_number_flag e))
                   (Py.sorted Plain.x_position row)); [reflexivity|].
  destruct (filter Plain.is_line_number_flag (Py.sorted Plain.x_position row));
    reflexivity.
Qed.

Lemma rows_agree (separator : string) (st : Offsets.page_state)
    (row : list Offsets.LineElement) :
  fst (fst (Offsets.reflow_group separator st row))
    = Plain.reflow_group separator (fst (fst st)) (map forget row).
Proof.
  destruct st as [[out infos] cur]. rewrite plain_reflow_group_text.
  rewrite sorted_map_forget, !filter_map_forget, !map_map.
  unfold Offsets.reflow_group. simpl fst.
  change (fun e => negb (Plain.is_line_number_flag (forget e)))
    with (fun e => negb (Offsets.is_line_number_flag e)).
  change (fun e => Plain.is_line_number_flag (forget e))
    with Offsets.is_line_number_flag.
  change (fun x => Plain.content (forget x)) with Offsets.content.
  destruct (filter (fun e => negb (Offsets.is_line_number_flag e))
                   (Py.sorted Offsets.x_position row)) as [|first_content others];
    [reflexivity|].
  destruct (offsets_line_of_row separator
              (filter Offsets.is_line_number_flag (Py.sorted Offsets.x_position row))
              first_content others cur) as [parts [ws [cur' [Heq [Htext _]]]]].
  rewrite Heq. simpl. rewrite Htext, map_map. reflexivity.
Qed.

(** X8: for every row the two engines build the same line: the output
    lines after the row in the offset-tracking engine are the output lines
    after the same units in the plain engine. *)
Theorem engines_build_the_same_line (separator : string)
    (output_lines : list string) (line_offset_infos : list Offsets.LineOffsetInfo)
    (current_offset : Z) (row : list Offsets.LineElement) :
  fst (fst (Offsets.reflow_group separator
              (output_lines, line_offset_infos, current_offset) row))
    = Plain.reflow_group separator output_lines (map forget row).
Proof. apply (rows_agree separator (output_lines, line_offset_infos, current_offset)). Qed.

(** X9: for a row with at least one content unit the offset-tracking
    engine appends one line record.  Its content is the leftmost margin
    number and the separator (when the row has a number) followed by the
    content units, left to right, joined by single spaces; its words are
    that number followed by the content units; its box is the box of the
    leftmost content unit; its span starts at the cursor, and the cursor
    moves one past the end of the span. *)
Theorem line_record_of_a_row (separator : string)
    (output_lines : list string) (line_offset_infos : list Offsets.LineOffsetInfo)
    (current_offset : Z) (row : list Offsets.LineElement)
    (first_content : Offsets.LineElement) (others : list Offsets.LineElement) :
  filter (fun e => negb (Offsets.is_line_number_flag e))
         (Py.sorted Offsets.x_position row) = first_content :: others ->
  exists line,
    Offsets.reflow_group separator (output_lines, line_offset_infos, current_offset) row
      = (output_lines ++ [Offsets.l_content line],
         line_offset_infos ++ [line],
         Offsets.end_ (Offsets.l_offset line) + 1)
    /\ Offsets.l_content line
       = row_text separator
           (map Offsets.content
                (filter Offsets.is_line_number_flag (Py.sorted Offsets.x_position row)))
           (map Offsets.content (first_content :: others))
    /\ map Offsets.w_content (Offsets.l_words line)
       = firstn 1 (map Offsets.content
                       (filter Offsets.is_line_number_flag
                               (Py.sorted Offsets.x_position row)))
         ++ map Offsets.content (first_content :: others)
    /\ Offsets.l_bbox line = Offsets.bbox first_content
    /\ Offsets.start (Offsets.l_offset line) = current_offset
    /\ Offsets.end_ (Offsets.l_offset line)
       = current_offset + Py.len (Offsets.l_content line).
Proof.
  intros Hc. unfold Offsets.reflow_group. rewrite Hc.
  pose proof (add_content_elements_inv current_offset (first_content :: others) 0 _
                (add_line_number_inv current_offset separator
                   (filter Offsets.is_line_number_flag (Py.sorted Offsets.x_position row))
                   _ (line_inv_init current_offset))) as Hinv.
  destruct (offsets_line_of_row separator
              (filter Offsets.is_line_number_flag (Py.sorted Offsets.x_position row))
              first_content others current_offset)
    as [parts [ws [cur' [Heq [Htext Hwords]]]]].
  rewrite Heq in Hinv |- *. destruct Hinv as [Hcur _].
  exists (Offsets.mkLineOffsetInfo (Py.concat_str parts)
            (Offsets.mkOffset current_offset cur') (Offsets.bbox first_content) ws).
  cbn [Offsets.l_content Offsets.l_offset Offsets.l_bbox Offsets.l_words
       Offsets.start Offsets.end_].
  split; [reflexivity|]. split; [exact Htext|]. split; [exact Hwords|].
  split; [reflexivity|]. split; [reflexivity|]. exact Hcur.
Qed.

Lemma line_record_of_a_row_witness :
  exists line,
    Offsets.reflow_group " | " ([], [], 0)
      [offsets_unit "INDEX" 0.5 0.5; Offsets.mkLineElement "1" 0.5 0.1 1 true None None None]
      = ([Offsets.l_content line], [line], Offsets.end_ (Offsets.l_offset line) + 1)
    /\ Offsets.l_content line = "1 | INDEX"
    /\ map Offsets.w_content (Offsets.l_words line) = ["1"; "INDEX"].
Proof.
  destruct (line_record_of_a_row " | " [] [] 0
              [offsets_unit "INDEX" 0.5 0.5;
               Offsets.mkLineElement "1" 0.5 0.1 1 true None None None]
              (offsets_unit "INDEX" 0.5 0.5) [] ltac:(vm_compute; reflexivity))
    as [line [Heq [Htext [Hwords _]]]].
  exists line. split; [exact Heq|]. split.
  - rewrite Htext. vm_compute. reflexivity.
  - rewrite Hwords. vm_compute. reflexivity.
Defined.

(* ================================================================= *)
(** ** Further properties of a page *)

Lemma truthy_append_l (a b : string) : truthy a = true -> truthy (a ++ b) = true.
Proof. destruct a; [discriminate | reflexivity]. Qed.

Lemma truthy_append_r (a b : string) : truthy b = true -> truthy (a ++ b) = true.
Proof. intros H. destruct a; [exact H | reflexivity]. Qed.

Lemma truthy_row_text (separator : string) (numbers : list string)
    (c : string) (cs : list string) :
  truthy c = true -> truthy (row_text separator numbers (c :: cs)) = true.
Proof.
  intros Hc. assert (Hj : truthy (Py.join " " (c :: cs)) = true).
  { rewrite join_space_cons. apply truthy_append_l. exact Hc. }
  unfold row_text. destruct numbers as [|n ns]; [exact Hj|].
  apply truthy_append_r. apply truthy_append_r. exact Hj.
Qed.

Lemma truthy_join (sep : string) (x : string) (r : list string) :
  truthy x = true -> truthy (Py.join sep (x :: r)) = true.
Proof.
  intros Hx. destruct r as [|y r]; [exact Hx|].
  rewrite join_cons by discriminate. apply truthy_append_l. exact Hx.
Qed.

Lemma Forall_filter_sorted {A : Type} (P : A -> Prop) (p : A -> bool)
    (key : A -> float) (l : list A) :
  Forall P l -> Forall P (filter p (Py.sorted key l)).
Proof.
  intros H. apply Forall_forall. intros x Hx. apply filter_In in Hx.
  destruct Hx as [Hx _].
  apply (proj1 (Forall_forall P _) (sorted_Forall P key l H) x Hx).
Qed.

Lemma filter_sorted_nil_iff {A : Type} (p : A -> bool) (key : A -> float) (l : list A) :
  filter p (Py.sorted key l) = [] <-> filter p l = [].
Proof.
  split; [|apply filter_sorted_nil].
  rewrite !filter_nil_Forall.
  apply Permutation_Forall. apply sorted_permutation.
Qed.

(** A row is dropped when it holds margin numbers only. *)
Lemma no_content_iff_all_numbers (row : list Plain.LineElement) :
  filter (fun e => negb (Plain.is_line_number_flag e)) row = []
  <-> Forall (fun e => Plain.is_line_number_flag e = true) row.
Proof.
  rewrite filter_nil_Forall. split; intros H; eapply Forall_impl; try exact H;
    intros e He; simpl in *.
  - apply negb_false_iff. exact He.
  - apply negb_false_iff. exact He.
Qed.

Lemma plain_rows_truthy (separator : string) (groups : list (list Plain.LineElement)) :
  Forall (Forall (fun e => truthy (Plain.content e) = true)) groups ->
  forall output_lines,
    Forall (fun l => truthy l = true) output_lines ->
    Forall (fun l => truthy l = true)
           (fold_left (Plain.reflow_group separator) groups output_lines).
Proof.
  intros Hg. induction Hg as [|g gs Hgt Hgs IH]; intros out Hout; simpl.
  - exact Hout.
  - apply IH. rewrite plain_reflow_group_text.
    pose proof (Forall_filter_sorted _ (fun e => negb (Plain.is_line_number_flag e))
                  Plain.x_position g Hgt) as Hc.
    destruct (filter (fun e => negb (Plain.is_line_number_flag e))
                     (Py.sorted Plain.x_position g)) as [|c cs]; [exact Hout|].
    apply Forall_app. split; [exact Hout|].
    constructor; [|constructor].
    simpl map. apply truthy_row_text. inversion Hc; assumption.
Qed.

Lemma plain_rows_length (separator : string) (groups : list (list Plain.LineElement)) :
  forall output_lines,
    (List.length output_lines
     <= List.length (fold_left (Plain.reflow_group separator) groups output_lines))%nat
    /\ (List.length (fold_left (Plain.reflow_group separator) groups output_lines)
        = List.length output_lines ->
        Forall (Forall (fun e => Plain.is_line_number_flag e = true)) groups).
Proof.
  induction groups as [|g gs IH]; intros out; simpl.
  - split; [lia | constructor].
  - destruct (IH (Plain.reflow_group separator out g)) as [Hle Heq].
    rewrite plain_reflow_group_text in Hle, Heq |- *.
    destruct (filter (fun e => negb (Plain.is_line_number_flag e))
                     (Py.sorted Plain.x_position g)) as [|c cs] eqn:Ec.
    + split; [exact Hle|]. intros H. constructor; [|apply Heq; exact H].
      apply no_content_iff_all_numbers.
      apply (filter_sorted_nil_iff _ Plain.x_position). exact Ec.
    + set (line := row_text separator
                     (map Plain.content
                          (filter Plain.is_line_number_flag (Py.sorted Plain.x_position g)))
                     (map Plain.content (c :: cs))) in *.
      assert (Hlen : List.length (out ++ [line]) = S (List.length out)).
      { rewrite length_app. simpl. lia. }
      split; [lia|]. intros H. lia.
Qed.

Lemma plain_rows_dropped (separator : string) (groups : list (list Plain.LineElement)) :
  Forall (Forall (fun e => Plain.is_line_number_flag e = true)) groups ->
  forall output_lines,
    fold_left (Plain.reflow_group separator) groups output_lines = output_lines.
Proof.
  intros H. induction H as [|g gs Hg Hgs IH]; intros out; simpl.
  - reflexivity.
  - rewrite (plain_row_dropped separator out g); [apply IH|].
    apply no_content_iff_all_numbers. exact Hg.
Qed.

Lemma Forall_groups {A : Type} (P : A -> Prop) (groups : list (list A)) :
  Forall (Forall P) groups <-> Forall P (List.concat groups).
Proof.
  induction groups as [|g gs IH]; simpl.
  - split; constructor.
  - rewrite Forall_app, <- IH. split.
    + intros H. inversion H; subst. split; assumption.
    + intros [Hg Hgs]. constructor; assumption.
Qed.

(** The lines that the plain row loop builds from groups that partition
    units with non-empty content. *)
Lemma plain_lines_of_groups (separator : string)
    (elements : list Plain.LineElement) (groups : list (list Plain.LineElement)) :
  Permutation (List.concat groups) elements ->
  Forall (fun e => truthy (Plain.content e) = true) elements ->
  Forall (fun l => truthy l = true) (fold_left (Plain.reflow_group separator) groups [])
  /\ (fold_left (Plain.reflow_group separator) groups [] = []
      <-> Forall (fun e => Plain.is_line_number_flag e = true) elements).
Proof.
  intros Hp Ht. split.
  - apply plain_rows_truthy; [|constructor].
    apply Forall_groups. apply (Permutation_Forall (Permutation_sym Hp)). exact Ht.
  - split.
    + intros H. apply (Permutation_Forall Hp). apply Forall_groups.
      apply (proj2 (plain_rows_length separator groups [])). rewrite H. reflexivity.
    + intros H. apply plain_rows_dropped. apply Forall_groups.
      apply (Permutation_Forall (Permutation_sym Hp)). exact H.
Qed.

Lemma join_empty_iff (sep : string) (l : list string) :
  Forall (fun x => truthy x = true) l ->
  (Py.join sep l = EmptyString <-> l = []).
Proof.
  intros H. split.
  - intros E. destruct l as [|x r]; [reflexivity|].
    inversion H; subst. pose proof (truthy_join sep x r H2) as Ht.
    rewrite E in Ht. discriminate.
  - intros ->. reflexivity.
Qed.

Lemma plain_extract_truthy (float_of_str : string -> option float) (page : Page) :
  Forall (fun e => truthy (Plain.content e) = true)
         (Plain.extract_lines_from_page float_of_str page).
Proof.
  rewrite plain_extract_collect. apply Forall_forall. intros e He.
  apply in_flat_map in He. destruct He as [line [_ He]].
  destruct (Plain.extract_line float_of_str line) as [e'|] eqn:E; [|contradiction].
  destruct He as [He | []]. subst e'.
  apply (plain_extract_line_some float_of_str line e E).
Qed.

Lemma plain_page_empty_iff (float_of_str : string -> option float) (page : Page)
    (separator : string) :
  Plain.reflow_page_with_line_numbers float_of_str page separator = EmptyString
  <-> Forall (fun e => Plain.is_line_number_flag e = true)
             (Plain.extract_lines_from_page float_of_str page).
Proof.
  unfold Plain.reflow_page_with_line_numbers.
  pose proof (plain_extract_truthy float_of_str page) as Ht.
  destruct (Plain.extract_lines_from_page float_of_str page) as [|el els] eqn:E.
  - split; [constructor | reflexivity].
  - destruct (plain_lines_of_groups separator (el :: els)
                (Plain.group_lines_by_vertical_position (el :: els))
                (proj1 (plain_groups_partition (el :: els))) Ht) as [Hlines Hiff].
    rewrite (join_empty_iff newline _ Hlines). exact Hiff.
Qed.

Lemma reflow_group_contents (separator : string) (st : Offsets.page_state)
    (row : list Offsets.LineElement) :
  map Offsets.l_content (snd (fst st)) = fst (fst st) ->
  map Offsets.l_content (snd (fst (Offsets.reflow_group separator st row)))
    = fst (fst (Offsets.reflow_group separator st row)).
Proof.
  destruct st as [[out infos] cur]. simpl. intros H. unfold Offsets.reflow_group.
  destruct (filter (fun e => negb (Offsets.is_line_number_flag e))
                   (Py.sorted Offsets.x_position row)) as [|c cs]; [exact H|].
  destruct (Offsets.add_content_elements 0 (c :: cs)
              (Offsets.add_line_number separator
                 (filter Offsets.is_line_number_flag (Py.sorted Offsets.x_position row))
                 ([], [], cur))) as [[parts ws] cur'].
  simpl. rewrite map_app, H. reflexivity.
Qed.

(** X10: in the plain engine the text of a page is empty exactly when the
    page has no content unit, that is when every extracted unit is a margin
    number (in particular when nothing is extracted). *)
Theorem page_text_empty_iff_only_margin_numbers
    (float_of_str : string -> option float) (page : Page) (separator : string) :
  Plain.reflow_page_with_line_numbers float_of_str page separator = EmptyString
  <-> Forall (fun e => Plain.is_line_number_flag e = true)
             (Plain.extract_lines_from_page float_of_str page).
Proof. apply plain_page_empty_iff. Qed.

(** X11: the page function of the notebook cell returns, for every page,
    the empty text and a page record that carries the declared page number,
    an empty span at the cursor it was given, and no line record. *)
Theorem cell_page_is_empty
    (float_of_str : string -> option float) (page : Page)
    (separator : string) (current_offset : Z) :
  Offsets.reflow_page_with_line_numbers_and_offsets float_of_str page separator
    current_offset
  = (EmptyString,
     Offsets.mkPageOffsetInfo (declared_number page)
       (Offsets.mkOffset current_offset current_offset) []).
Proof. apply cell_page_result. Qed.

Lemma located_slice_from (T : string) (base : Z) (o : Offsets.Offset) (c : string) :
  located T base o c ->
  Py.slice T (Offsets.start o - base) (Offsets.end_ o - base) = c.
Proof.
  intros [pre [post [HT [Hs He]]]].
  apply (located_slice T (Offsets.mkOffset (Offsets.start o - base)
                                           (Offsets.end_ o - base)) c).
  exists pre, post. simpl. repeat split; [exact HT | lia | lia].
Qed.

Lemma chain_bounds (l : list Offsets.Offset) :
  forall lo hi,
    chain lo l hi ->
    Forall (fun s => lo <= Offsets.start s /\ Offsets.end_ s <= hi) l.
Proof.
  induction l as [|s r IH]; simpl; intros lo hi H.
  - constructor.
  - destruct H as [H1 [H2 H3]]. pose proof (chain_le r _ _ H3) as Hle.
    constructor; [lia|].
    eapply Forall_impl; [|exact (IH _ _ H3)]. simpl. intros a Ha. lia.
Qed.

(** X12: the line record that the loop of the notebook cell appends for a
    row with content agrees with its own words: the slice of the line's
    content at a word's span, counted from the start of the line, is the
    word's content; the word spans are in order without overlap and lie
    within the span of the line. *)
Theorem line_record_round_trip (separator : string)
    (output_lines : list string) (line_offset_infos : list Offsets.LineOffsetInfo)
    (current_offset : Z) (row : list Offsets.LineElement)
    (first_content : Offsets.LineElement) (others : list Offsets.LineElement) :
  filter (fun e => negb (Offsets.is_line_number_flag e))
         (Py.sorted Offsets.x_position row) = first_content :: others ->
  exists line,
    Offsets.reflow_group separator (output_lines, line_offset_infos, current_offset) row
      = (output_lines ++ [Offsets.l_content line],
         line_offset_infos ++ [line],
         Offsets.end_ (Offsets.l_offset line) + 1)
    /\ Offsets.start (Offsets.l_offset line) = current_offset
    /\ Forall (fun w =>
                 Py.slice (Offsets.l_content line)
                          (Offsets.start (Offsets.w_offset w) - current_offset)
                          (Offsets.end_ (Offsets.w_offset w) - current_offset)
                   = Offsets.w_content w)
              (Offsets.l_words line)
    /\ non_overlapping (map Offsets.w_offset (Offsets.l_words line))
    /\ Forall (fun w =>
                 Offsets.start (Offsets.l_offset line) <= Offsets.start (Offsets.w_offset w)
                 /\ Offsets.end_ (Offsets.w_offset w) <= Offsets.end_ (Offsets.l_offset line))
              (Offsets.l_words line).
Proof.
  intros Hc. unfold Offsets.reflow_group. rewrite Hc.
  pose proof (add_content_elements_inv current_offset (first_content :: others) 0 _
                (add_line_number_inv current_offset separator
                   (filter Offsets.is_line_number_flag (Py.sorted Offsets.x_position row))
                   _ (line_inv_init current_offset))) as Hinv.
  destruct (Offsets.add_content_elements 0 (first_content :: others)
              (Offsets.add_line_number separator
                 (filter Offsets.is_line_number_flag (Py.sorted Offsets.x_position row))
                 ([], [], current_offset))) as [[parts ws] cur'].
  destruct Hinv as [Hcur [Hchain Hloc]].
  exists (Offsets.mkLineOffsetInfo (Py.concat_str parts)
            (Offsets.mkOffset current_offset cur') (Offsets.bbox first_content) ws).
  cbn [Offsets.l_content Offsets.l_offset Offsets.l_bbox Offsets.l_words
       Offsets.start Offsets.end_].
  split; [reflexivity|]. split; [reflexivity|]. split; [|split].
  - eapply Forall_impl; [|exact Hloc]. intros w Hw.
    apply located_slice_from. exact Hw.
  - apply (chain_non_overlapping _ current_offset cur'). exact Hchain.
  - pose proof (chain_bounds _ _ _ Hchain) as Hb.
    rewrite Forall_map in Hb. exact Hb.
Qed.

Lemma line_record_round_trip_witness :
  exists line,
    Offsets.reflow_group " | " ([], [], 5) scenario_units
      = ([Offsets.l_content line], [line], Offsets.end_ (Offsets.l_offset line) + 1)
    /\ Forall (fun w =>
                 Py.slice (Offsets.l_content line)
                          (Offsets.start (Offsets.w_offset w) - 5)
                          (Offsets.end_ (Offsets.w_offset w) - 5)
                   = Offsets.w_content w)
              (Offsets.l_words line).
Proof.
  destruct (line_record_round_trip " | " [] [] 5 scenario_units
              _ _ ltac:(vm_compute; reflexivity))
    as [line [Heq [_ [Hw _]]]].
  exists line. split; [exact Heq | exact Hw].
Defined.

Lemma located_fits (T : string) (base : Z) (o : Offsets.Offset) (c : string) :
  located T base o c -> span_fits o c.
Proof. intros [pre [post [_ [_ He]]]]. exact He. Qed.

Lemma line_located_fits (T : string) (base : Z) (li : Offsets.LineOffsetInfo) :
  line_located T base li -> line_fits li.
Proof.
  intros [Hl Hw]. split.
  - apply (located_fits T base). exact Hl.
  - eapply Forall_impl; [|exact Hw]. intros w H. apply (located_fits T base). exact H.
Qed.

Lemma len_counted_text (output_lines : list string) :
  Py.len (counted_text newline output_lines)
    = fold_right Z.add 0 (map (fun l => Py.len l + 1) output_lines).
Proof.
  unfold counted_text. induction output_lines as [|l r IH].
  - reflexivity.
  - simpl map. simpl Py.concat_str. simpl fold_right.
    rewrite !len_append, len_newline, IH. reflexivity.
Qed.

(** X13: the loop of the notebook cell over the rows of a page keeps its
    ledger in order, whatever the rows: the output lines are the contents
    of the line records; every line span and every word span is as long as
    its content; the line spans, and the word spans across all lines, are
    in order without overlap; and the cursor has moved by the length of
    each line plus one. *)
Theorem rows_keep_the_ledger (separator : string)
    (rows : list (list Offsets.LineElement)) (current_offset : Z) :
  exists infos cur,
    fold_left (Offsets.reflow_group separator) rows ([], [], current_offset)
      = (map Offsets.l_content infos, infos, cur)
    /\ Forall line_fits infos
    /\ non_overlapping (map Offsets.l_offset infos)
    /\ non_overlapping (map Offsets.w_offset (words_of infos))
    /\ cur = current_offset
             + fold_right Z.add 0
                 (map (fun line => Py.len (Offsets.l_content line) + 1) infos).
Proof.
  pose proof (fold_left_inv (page_inv current_offset) (Offsets.reflow_group separator) rows
                (fun st g => reflow_group_inv current_offset separator st g) _
                (page_inv_init current_offset)) as Hinv.
  pose proof (fold_left_inv
                (fun st => map Offsets.l_content (snd (fst st)) = fst (fst st))
                (Offsets.reflow_group separator) rows
                (fun st g => reflow_group_contents separator st g)
                ([], [], current_offset) eq_refl) as Hcontents.
  destruct (fold_left (Offsets.reflow_group separator) rows ([], [], current_offset))
    as [[out infos] cur] eqn:EF.
  rewrite ?EF in Hcontents. simpl in Hcontents. subst out.
  destruct Hinv as [Hcur [Hlines [Hwords Hloc]]].
  exists infos, cur. split; [reflexivity|]. split; [|split; [|split]].
  - eapply Forall_impl; [|exact Hloc]. intros li Hli.
    apply (line_located_fits _ _ _ Hli).
  - apply (chain_non_overlapping _ _ _ Hlines).
  - apply (chain_non_overlapping _ _ _ Hwords).
  - rewrite Hcur, len_counted_text, map_map. reflexivity.
Qed.

(* ================================================================= *)
(** ** Further properties of the document loop *)

(** Whether a page passes the target filter. *)
Lemma selected_cons (target_page : option Z) (p : Page) (ps : list Page) :
  selected target_page (p :: ps)
    = if match target_page with
         | Some t => declared_number p =? t
         | None => true
         end
      then p :: selected target_page ps
      else selected target_page ps.
Proof. destruct target_page; reflexivity. Qed.

(** X14: the document function of the notebook cell records nothing: for
    a document with pages it returns a mapping without pages; its text is
    empty when a target page is given, and otherwise holds only the markers
    of the pages, each written and joined with a backslash and the letter n
    where a newline was meant. *)
Theorem cell_document_records_nothing
    (float_of_str : string -> option float) (json_data : Document)
    (target_page : option Z) (separator : string) :
  pages_of json_data <> [] ->
  Offsets.reflow_document_with_offsets float_of_str json_data target_page separator
  = Ok (match target_page with
        | None => Py.join cell_newline (map cell_page_marker (pages_of json_data))
        | Some _ => EmptyString
        end,
        Offsets.mkOffsetMapping []).
Proof. apply cell_document_result. Qed.

Lemma cell_document_records_nothing_witness :
  Offsets.reflow_document_with_offsets float_of_decimal scenario_document None " | "
  = Ok ((backslash ++ "n<!-- Page 1 -->" ++ backslash ++ "n")%string,
        Offsets.mkOffsetMapping []).
Proof.
  rewrite (cell_document_records_nothing float_of_decimal scenario_document None " | ").
  - vm_compute. reflexivity.
  - discriminate.
Defined.

Lemma plain_fold_selected (float_of_str : string -> option float)
    (target_page : option Z) (separator : string) (ps : list Page) :
  forall output_parts,
    fold_left (Plain.document_step float_of_str target_page separator) ps output_parts
    = fold_left (Plain.document_step float_of_str target_page separator)
                (selected target_page ps) output_parts.
Proof.
  destruct target_page as [t|]; [|reflexivity].
  induction ps as [|p ps IH]; intros out; [reflexivity|].
  rewrite selected_cons. simpl fold_left at 1.
  destruct (declared_number p =? t) eqn:E.
  - simpl fold_left. apply IH.
  - rewrite <- IH. f_equal. unfold Plain.document_step.
    fold (declared_number p). rewrite E. reflexivity.
Qed.

Lemma offsets_fold_selected (float_of_str : string -> option float)
    (target_page : option Z) (separator : string) (ps : list Page) :
  forall st,
    fold_left (Offsets.document_step float_of_str target_page separator) ps st
    = fold_left (Offsets.document_step float_of_str target_page separator)
                (selected target_page ps) st.
Proof.
  destruct target_page as [t|]; [|reflexivity].
  induction ps as [|p ps IH]; intros st; [reflexivity|].
  rewrite selected_cons. simpl fold_left at 1.
  destruct (declared_number p =? t) eqn:E.
  - simpl fold_left. apply IH.
  - rewrite <- IH. f_equal. destruct st as [[parts mapping] cur].
    unfold Offsets.document_step. fold (declared_number p). rewrite E. reflexivity.
Qed.

Lemma plain_document_selected (float_of_str : string -> option float)
    (json_data : Document) (target_page : option Z) (separator : string) :
  pages_of json_data <> [] ->
  Plain.reflow_document float_of_str json_data target_page separator
    = Ok (Py.join newline
            (fold_left (Plain.document_step float_of_str target_page separator)
                       (selected target_page (pages_of json_data)) [])).
Proof.
  unfold Plain.reflow_document, pages_of. intros H.
  destruct (contents json_data) as [|content rest]; [congruence|].
  destruct (pages content) as [|p ps] eqn:Ep; [congruence|].
  rewrite <- Ep. rewrite plain_fold_selected. reflexivity.
Qed.

Lemma offsets_document_selected (float_of_str : string -> option float)
    (json_data : Document) (target_page : option Z) (separator : string) :
  pages_of json_data <> [] ->
  Offsets.reflow_document_with_offsets float_of_str json_data target_page separator
    = (let '(output_parts, mapping, _) :=
         fold_left (Offsets.document_step float_of_str target_page separator)
                   (selected target_page (pages_of json_data)) ([], [], 0) in
       Ok (match target_page with
           | None => Py.join cell_newline output_parts
           | Some _ =>
               match output_parts with
               | _ :: second :: _ => second
               | [first] => first
               | [] => EmptyString
               end
           end, Offsets.mkOffsetMapping mapping)).
Proof.
  unfold Offsets.reflow_document_with_offsets, pages_of. intros H.
  destruct (contents json_data) as [|content rest]; [congruence|].
  destruct (pages content) as [|p ps] eqn:Ep; [congruence|].
  rewrite <- Ep. rewrite offsets_fold_selected. reflexivity.
Qed.

(** X15: with a target page, the pages that do not carry the target number
    have no influence: two documents (each with at least one page) whose
    pages carrying the target number are the same give the same result, in
    both engines. *)
Theorem pages_off_target_are_invisible
    (float_of_str : string -> option float) (json_1 json_2 : Document)
    (t : Z) (separator : string) :
  pages_of json_1 <> [] ->
  pages_of json_2 <> [] ->
  selected (Some t) (pages_of json_1) = selected (Some t) (pages_of json_2) ->
  Plain.reflow_document float_of_str json_1 (Some t) separator
    = Plain.reflow_document float_of_str json_2 (Some t) separator
  /\ Offsets.reflow_document_with_offsets float_of_str json_1 (Some t) separator
    = Offsets.reflow_document_with_offsets float_of_str json_2 (Some t) separator.
Proof.
  intros H1 H2 Hs. split.
  - rewrite !plain_document_selected by assumption. rewrite Hs. reflexivity.
  - rewrite !offsets_document_selected by assumption. rewrite Hs. reflexivity.
Qed.

Lemma pages_off_target_are_invisible_witness :
  Plain.reflow_document float_of_decimal
    (mkDocument [mkContent None [mkPage (Some 7) []; scenario_page]]) (Some 1) " | "
  = Plain.reflow_document float_of_decimal scenario_document (Some 1) " | ".
Proof.
  apply (pages_off_target_are_invisible float_of_decimal
           (mkDocument [mkContent None [mkPage (Some 7) []; scenario_page]])
           scenario_document 1 " | ").
  - discriminate.
  - discriminate.
  - reflexivity.
Defined.

(** X16: a target page that no page of the document carries is not an
    error: the plain engine returns the empty text, and the offset-tracking
    engine the empty text with a mapping without pages. *)
Theorem missing_target_page_gives_empty_text
    (float_of_str : string -> option float) (json_data : Document)
    (t : Z) (separator : string) :
  pages_of json_data <> [] ->
  selected (Some t) (pages_of json_data) = [] ->
  Plain.reflow_document float_of_str json_data (Some t) separator = Ok EmptyString
  /\ Offsets.reflow_document_with_offsets float_of_str json_data (Some t) separator
     = Ok (EmptyString, Offsets.mkOffsetMapping []).
Proof.
  intros Hp Hs. split.
  - rewrite plain_document_selected by assumption. rewrite Hs. reflexivity.
  - rewrite offsets_document_selected by assumption. rewrite Hs. reflexivity.
Qed.

Lemma missing_target_page_gives_empty_text_witness :
  Plain.reflow_document float_of_decimal scenario_document (Some 9) " | " = Ok EmptyString
  /\ Offsets.reflow_document_with_offsets float_of_decimal scenario_document (Some 9) " | "
     = Ok (EmptyString, Offsets.mkOffsetMapping []).
Proof.
  apply missing_target_page_gives_empty_text.
  - discriminate.
  - reflexivity.
Defined.

(** *** The layout of the plain text *)

Lemma join_app (sep : string) (l1 l2 : list string) :
  l1 <> [] -> l2 <> [] ->
  Py.join sep (l1 ++ l2) = (Py.join sep l1 ++ sep ++ Py.join sep l2)%string.
Proof.
  intros H1 H2. induction l1 as [|x r IH]; [congruence|].
  destruct r as [|y r].
  - simpl app. rewrite join_cons by exact H2. reflexivity.
  - change ((x :: y :: r) ++ l2) with (x :: ((y :: r) ++ l2)).
    rewrite join_cons by discriminate.
    rewrite IH by discriminate.
    rewrite (join_cons sep x (y :: r)) by discriminate.
    rewrite !append_assoc. reflexivity.
Qed.

Lemma plain_document_step_parts (float_of_str : string -> option float)
    (target_page : option Z) (separator : string)
    (output_parts : list string) (page : Page) :
  selected target_page [page] = [page] ->
  Plain.document_step float_of_str target_page separator output_parts page
    = output_parts
      ++ (if truthy (Plain.reflow_page_with_line_numbers float_of_str page separator)
          then match target_page with
               | None => [("<!-- Page " ++ Py.str_of_int (declared_number page)
                           ++ " -->" ++ newline)%string]
               | Some _ => []
               end
               ++ [Plain.reflow_page_with_line_numbers float_of_str page separator;
                   EmptyString]
          else []).
Proof.
  intros Hs. unfold Plain.document_step. fold (declared_number page).
  assert (Hskip : match target_page with
                  | Some t => negb (declared_number page =? t)
                  | None => false
                  end = false).
  { destruct target_page as [t|]; [|reflexivity].
    unfold selected in Hs. simpl in Hs.
    destruct (declared_number page =? t); [reflexivity | discriminate]. }
  rewrite Hskip.
  destruct (truthy (Plain.reflow_page_with_line_numbers float_of_str page separator)).
  - destruct target_page; simpl; rewrite <- ?app_assoc; reflexivity.
  - rewrite app_nil_r. reflexivity.
Qed.

Lemma selected_idempotent (target_page : option Z) (ps : list Page) :
  Forall (fun p => selected target_page [p] = [p]) (selected target_page ps).
Proof.
  destruct target_page as [t|]; simpl.
  - apply Forall_forall. intros p Hp. apply filter_In in Hp. destruct Hp as [_ Hp].
    rewrite Hp. reflexivity.
  - apply Forall_forall. intros p _. reflexivity.
Qed.

Lemma plain_parts_layout (float_of_str : string -> option float)
    (target_page : option Z) (separator : string) (block : Page -> string)
    (ps : list Page) :
  (forall p,
      block p
      = ((match target_page with
          | None => ("<!-- Page " ++ Py.str_of_int (declared_number p)
                     ++ " -->" ++ newline ++ newline)%string
          | Some _ => EmptyString
          end)
         ++ Plain.reflow_page_with_line_numbers float_of_str p separator
         ++ newline)%string) ->
  Forall (fun p => selected target_page [p] = [p]) ps ->
  forall output_parts,
    exists added,
      fold_left (Plain.document_step float_of_str target_page separator) ps output_parts
        = output_parts ++ added
      /\ Py.join newline added
         = Py.join newline
             (map block
                  (filter (fun p => truthy (Plain.reflow_page_with_line_numbers
                                              float_of_str p separator)) ps))
      /\ (added = []
          <-> filter (fun p => truthy (Plain.reflow_page_with_line_numbers
                                         float_of_str p separator)) ps = []).
Proof.
  intros Hblock Hsel. induction Hsel as [|p ps Hp Hps IH]; intros out.
  - exists []. simpl. rewrite app_nil_r. repeat split; reflexivity.
  - simpl fold_left. rewrite (plain_document_step_parts _ _ _ _ _ Hp).
    destruct (IH (out ++
                  (if truthy (Plain.reflow_page_with_line_numbers float_of_str p separator)
                   then match target_page with
                        | None => [("<!-- Page " ++ Py.str_of_int (declared_number p)
                                    ++ " -->" ++ newline)%string]
                        | Some _ => []
                        end
                        ++ [Plain.reflow_page_with_line_numbers float_of_str p separator;
                            EmptyString]
                   else []))) as [added [Hfold [Hjoin Hnil]]].
    rewrite Hfold. simpl filter.
    destruct (truthy (Plain.reflow_page_with_line_numbers float_of_str p separator)).
    + eexists. split; [rewrite <- app_assoc; reflexivity|]. split.
      * simpl map.
        set (own := match target_page with
                    | None => [("<!-- Page " ++ Py.str_of_int (declared_number p)
                                ++ " -->" ++ newline)%string]
                    | Some _ => []
                    end
                    ++ [Plain.reflow_page_with_line_numbers float_of_str p separator;
                        EmptyString]).
        assert (Hown : Py.join newline own = block p).
        { rewrite Hblock. unfold own. destruct target_page; simpl;
            rewrite ?append_empty_r, ?append_assoc; reflexivity. }
        assert (Hne : own <> []) by (unfold own; destruct target_page; discriminate).
        destruct added as [|a added'].
        -- rewrite app_nil_r, Hown.
           rewrite (proj1 Hnil eq_refl). reflexivity.
        -- rewrite (join_app newline own (a :: added') Hne) by discriminate.
           rewrite Hown, Hjoin.
           destruct (filter (fun p0 => truthy (Plain.reflow_page_with_line_numbers
                                                 float_of_str p0 separator)) ps)
             as [|q qs] eqn:Ef.
           ++ destruct Hnil as [_ Hnil]. specialize (Hnil eq_refl). discriminate.
           ++ simpl map.
              rewrite (join_cons newline (block p) (block q :: map block qs))
                by discriminate.
              reflexivity.
      * split; intros H; [|discriminate H].
        apply app_eq_nil in H. destruct H as [H _].
        destruct target_page; simpl in H; discriminate H.
    + exists added. rewrite app_nil_r. split; [reflexivity|]. split; assumption.
Qed.

(** X17: the text of the plain engine is made of one block per selected
    page whose text is not empty, the blocks being joined by a newline.  A
    block is the page text followed by a newline; without a target page it
    is preceded by the marker line [<!-- Page N -->] and an empty line. *)
Theorem plain_document_layout
    (float_of_str : string -> option float) (json_data : Document)
    (target_page : option Z) (separator : string) :
  pages_of json_data <> [] ->
  Plain.reflow_document float_of_str json_data target_page separator
    = Ok (Py.join newline
            (map (fun p =>
                    ((match target_page with
                      | None => ("<!-- Page " ++ Py.str_of_int (declared_number p)
                                 ++ " -->" ++ newline ++ newline)%string
                      | Some _ => EmptyString
                      end)
                     ++ Plain.reflow_page_with_line_numbers float_of_str p separator
                     ++ newline)%string)
                 (filter (fun p => truthy (Plain.reflow_page_with_line_numbers
                                             float_of_str p separator))
                         (selected target_page (pages_of json_data))))).
Proof.
  intros Hp. rewrite (plain_document_selected _ _ _ _ Hp).
  destruct (plain_parts_layout float_of_str target_page separator _
              (selected target_page (pages_of json_data))
              (fun p => eq_refl) (selected_idempotent target_page _) [])
    as [added [Hfold [Hjoin _]]].
  rewrite Hfold. simpl app. rewrite Hjoin. reflexivity.
Qed.

Lemma plain_document_layout_witness :
  Plain.reflow_document float_of_decimal repeated_page_document None " | "
  = Ok ("<!-- Page 1 -->" ++ newline ++ newline ++ "1 | INDEX" ++ newline
        ++ newline
        ++ "<!-- Page 1 -->" ++ newline ++ newline ++ "1 | INDEX" ++ newline)%string.
Proof.
  rewrite (plain_document_layout float_of_decimal repeated_page_document None " | ").
  - vm_compute. reflexivity.
  - discriminate.
Defined.

(* ================================================================= *)
(** ** The accuracy test of the demo *)

Lemma check_line_eq (content : string) (test_count pass_count : Z)
    (line : Dict.LineDict) :
  Demo.check_line content (test_count, pass_count) line
    = (test_count + 1,
       if (Py.slice content (Offsets.start (Dict.l_offset line))
                            (Offsets.end_ (Dict.l_offset line))
           =? Dict.l_content line)%string
       then pass_count + 1 else pass_count).
Proof.
  unfold Demo.check_line.
  destruct (Py.slice content (Offsets.start (Dict.l_offset line))
                             (Offsets.end_ (Dict.l_offset line))
            =? Dict.l_content line)%string; reflexivity.
Qed.

Lemma check_lines_counts (content : string) (lines : list Dict.LineDict) :
  forall test_count pass_count,
    pass_count <= test_count ->
    snd (fold_left (Demo.check_line content) lines (test_count, pass_count))
      <= fst (fold_left (Demo.check_line content) lines (test_count, pass_count))
    /\ (snd (fold_left (Demo.check_line content) lines (test_count, pass_count))
        = fst (fold_left (Demo.check_line content) lines (test_count, pass_count))
        <-> pass_count = test_count
            /\ Forall (fun line =>
                         Py.slice content (Offsets.start (Dict.l_offset line))
                                          (Offsets.end_ (Dict.l_offset line))
                           = Dict.l_content line) lines).
Proof.
  induction lines as [|line rest IH]; intros t p Hle; cbn [fold_left].
  - simpl. split; [exact Hle|]. split.
    + intros H. split; [exact H | constructor].
    + intros [H _]. exact H.
  - rewrite check_line_eq.
    destruct (String.eqb_spec
                (Py.slice content (Offsets.start (Dict.l_offset line))
                                  (Offsets.end_ (Dict.l_offset line)))
                (Dict.l_content line)) as [Heq | Hne].
    + destruct (IH (t + 1) (p + 1) ltac:(lia)) as [H1 H2].
      split; [exact H1|]. rewrite H2. split.
      * intros [Hp Hf]. split; [lia | constructor; assumption].
      * intros [Hp Hf]. inversion Hf; subst. split; [lia | assumption].
    + destruct (IH (t + 1) p ltac:(lia)) as [H1 H2].
      split; [exact H1|]. rewrite H2. split.
      * intros [Hp _]. lia.
      * intros [_ Hf]. inversion Hf; subst. contradiction.
Qed.

Lemma check_pages_counts (content : string) (pages_ : list Dict.PageDict) :
  forall test_count pass_count,
    pass_count <= test_count ->
    snd (fold_left (Demo.check_page content) pages_ (test_count, pass_count))
      <= fst (fold_left (Demo.check_page content) pages_ (test_count, pass_count))
    /\ (snd (fold_left (Demo.check_page content) pages_ (test_count, pass_count))
        = fst (fold_left (Demo.check_page content) pages_ (test_count, pass_count))
        <-> pass_count = test_count
            /\ Forall (fun page =>
                         Forall (fun line =>
                                   Py.slice content (Offsets.start (Dict.l_offset line))
                                                    (Offsets.end_ (Dict.l_offset line))
                                     = Dict.l_content line)
                                (firstn 3 (Dict.p_lines page))) pages_).
Proof.
  induction pages_ as [|page rest IH]; intros t p Hle; cbn [fold_left].
  - simpl. split; [exact Hle|]. split.
    + intros H. split; [exact H | constructor].
    + intros [H _]. exact H.
  - change (Demo.check_page content (t, p) page)
      with (fold_left (Demo.check_line content) (firstn 3 (Dict.p_lines page)) (t, p)).
    destruct (check_lines_counts content (firstn 3 (Dict.p_lines page)) t p Hle)
      as [Hl1 Hl2].
    destruct (fold_left (Demo.check_line content) (firstn 3 (Dict.p_lines page)) (t, p))
      as [t' p'].
    simpl fst in *. simpl snd in *.
    destruct (IH t' p' Hl1) as [H1 H2].
    split; [exact H1|]. rewrite H2, Hl2. split.
    + intros [[Hp Hf] Hr]. split; [exact Hp | constructor; assumption].
    + intros [Hp Hf]. inversion Hf; subst. repeat split; assumption.
Qed.

Lemma demo_test_iff (content : string) (mapping : Dict.MappingDict) :
  Demo.test_offset_accuracy content mapping = true
  <-> Forall (fun page =>
                Forall (fun line =>
                          Py.slice content (Offsets.start (Dict.l_offset line))
                                           (Offsets.end_ (Dict.l_offset line))
                            = Dict.l_content line)
                       (firstn 3 (Dict.p_lines page)))
             (Dict.m_pages mapping).
Proof.
  unfold Demo.test_offset_accuracy.
  destruct (check_pages_counts content (Dict.m_pages mapping) 0 0 ltac:(lia)) as [_ H].
  destruct (fold_left (Demo.check_page content) (Dict.m_pages mapping) (0, 0))
    as [t p].
  simpl in H. rewrite Z.eqb_eq, H. split.
  - intros [_ Hf]. exact Hf.
  - intros Hf. split; [reflexivity | exact Hf].
Qed.

(** X18: [test_offset_accuracy] of the demo returns [True] exactly when,
    for each page of the mapping, each of its first three lines is found in
    the content at its span; lines after the third are never looked at. *)
Theorem demo_test_checks_three_lines_per_page
    (content : string) (mapping : Dict.MappingDict) :
  Demo.test_offset_accuracy content mapping = true
  <-> Forall (fun page =>
                Forall (fun line =>
                          Py.slice content (Offsets.start (Dict.l_offset line))
                                           (Offsets.end_ (Dict.l_offset line))
                            = Dict.l_content line)
                       (firstn 3 (Dict.p_lines page)))
             (Dict.m_pages mapping).
Proof. apply demo_test_iff. Qed.


(* ================================================================= *)
(** ** The notebook update *)

Lemma list_insert_at {A : Type} (pre post : list A) (x : A) (i : nat) :
  i = List.length pre -> list_insert i x (pre ++ post) = pre ++ x :: post.
Proof.
  intros ->. unfold list_insert.
  rewrite firstn_app, skipn_app, Nat.sub_diag, firstn_all, skipn_all.
  simpl. rewrite app_nil_r. reflexivity.
Qed.

Lemma list_insert_beyond {A : Type} (l : list A) (x : A) (i : nat) :
  (List.length l <= i)%nat -> list_insert i x l = l ++ [x].
Proof.
  intros H. unfold list_insert. rewrite firstn_all2, skipn_all2 by exact H.
  reflexivity.
Qed.

(** Five insertions at consecutive indices put the five elements side by
    side, at the first index or at the end of the list if that is nearer. *)
Lemma five_inserts {A : Type} (l : list A) (i : nat) (a b c d e : A) :
  list_insert (i + 1 + 1 + 1 + 1) e
    (list_insert (i + 1 + 1 + 1) d
       (list_insert (i + 1 + 1) c
          (list_insert (i + 1) b
             (list_insert i a l))))
  = firstn i l ++ [a; b; c; d; e] ++ skipn i l.
Proof.
  destruct (Nat.le_gt_cases i (List.length l)) as [Hle | Hgt].
  - rewrite <- (firstn_skipn i l) at 1.
    assert (Hlen : List.length (firstn i l) = i) by (apply firstn_length_le; exact Hle).
    rewrite (list_insert_at (firstn i l) (skipn i l) a i) by (symmetry; exact Hlen).
    change (firstn i l ++ a :: skipn i l) with (firstn i l ++ [a] ++ skipn i l).
    rewrite app_assoc.
    rewrite (list_insert_at (firstn i l ++ [a]) (skipn i l) b (i + 1))
      by (rewrite length_app; simpl; lia).
    change ((firstn i l ++ [a]) ++ b :: skipn i l)
      with ((firstn i l ++ [a]) ++ [b] ++ skipn i l).
    rewrite app_assoc.
    rewrite (list_insert_at ((firstn i l ++ [a]) ++ [b]) (skipn i l) c (i + 1 + 1))
      by (rewrite !length_app; simpl; lia).
    change (((firstn i l ++ [a]) ++ [b]) ++ c :: skipn i l)
      with (((firstn i l ++ [a]) ++ [b]) ++ [c] ++ skipn i l).
    rewrite app_assoc.
    rewrite (list_insert_at (((firstn i l ++ [a]) ++ [b]) ++ [c]) (skipn i l) d
               (i + 1 + 1 + 1))
      by (rewrite !length_app; simpl; lia).
    change ((((firstn i l ++ [a]) ++ [b]) ++ [c]) ++ d :: skipn i l)
      with ((((firstn i l ++ [a]) ++ [b]) ++ [c]) ++ [d] ++ skipn i l).
    rewrite app_assoc.
    rewrite (list_insert_at ((((firstn i l ++ [a]) ++ [b]) ++ [c]) ++ [d]) (skipn i l) e
               (i + 1 + 1 + 1 + 1))
      by (rewrite !length_app; simpl; lia).
    rewrite <- !app_assoc. reflexivity.
  - rewrite (list_insert_beyond l a i) by lia.
    rewrite (list_insert_beyond (l ++ [a]) b) by (rewrite length_app; simpl; lia).
    rewrite (list_insert_beyond ((l ++ [a]) ++ [b]) c)
      by (rewrite !length_app; simpl; lia).
    rewrite (list_insert_beyond (((l ++ [a]) ++ [b]) ++ [c]) d)
      by (rewrite !length_app; simpl; lia).
    rewrite (list_insert_beyond ((((l ++ [a]) ++ [b]) ++ [c]) ++ [d]) e)
      by (rewrite !length_app; simpl; lia).
    rewrite firstn_all2, skipn_all2 by lia.
    rewrite <- !app_assoc, app_nil_r. reflexivity.
Qed.

Section NotebookUpdate.

Variable keys : Type.
Variable viz_keys explanation_keys demo_keys header_keys full_doc_keys : keys.
Variable enhanced_source viz_source explanation_source demo_source
         header_source full_doc_source : list string.

Lemma find_reflow_cell_spec (cells : list (Notebook.Cell keys)) :
  forall i,
    match Notebook.find_reflow_cell keys i cells with
    | None => Forall (fun cell => Notebook.is_reflow_cell keys cell = false) cells
    | Some index =>
        exists before cell after,
          cells = before ++ cell :: after
          /\ index = (i + List.length before)%nat
          /\ Forall (fun c => Notebook.is_reflow_cell keys c = false) before
          /\ Notebook.is_reflow_cell keys cell = true
    end.
Proof.
  induction cells as [|cell rest IH]; intros i; simpl.
  - constructor.
  - destruct (Notebook.is_reflow_cell keys cell) eqn:E.
    + exists [], cell, rest. simpl. repeat split; try assumption; try lia. constructor.
    + specialize (IH (S i)).
      destruct (Notebook.find_reflow_cell keys (S i) rest) as [index|].
      * destruct IH as [before [c [after [Hc [Hi [Hb Hq]]]]]].
        exists (cell :: before), c, after. simpl. rewrite Hc.
        repeat split; try assumption; try lia. constructor; assumption.
      * constructor; assumption.
Qed.

Lemma set_source_at (before after : list (Notebook.Cell keys)) (cell : Notebook.Cell keys) (new_source : list string) :
  Notebook.set_source keys (List.length before) new_source (before ++ cell :: after)
    = before
      ++ Notebook.mkCell keys (Notebook.cell_type keys cell) new_source
                         (Notebook.other_keys keys cell)
      :: after.
Proof.
  induction before as [|b before IH]; simpl.
  - reflexivity.
  - rewrite IH. reflexivity.
Qed.

(** X20: [update_notebook] saves nothing and reports failure exactly when
    no cell is a code cell whose source holds both
    [def reflow_page_with_line_numbers] and [class LineElement].
    Otherwise it takes the first such cell, gives it the new source and
    leaves its type and other keys, leaves every other cell as it was, and
    adds five cells, in the order visualization, explanation, demo, header
    and full document, side by side six places after the found cell or at
    the end of the notebook if that is nearer; the notebook grows by five
    cells. *)
Theorem notebook_update_outcome (cells : list (Notebook.Cell keys)) :
  (Notebook.update_cells keys viz_keys explanation_keys demo_keys header_keys
     full_doc_keys enhanced_source viz_source explanation_source demo_source
     header_source full_doc_source cells = None
   <-> Forall (fun cell => Notebook.is_reflow_cell keys cell = false) cells)
  /\ (forall saved,
      Notebook.update_cells keys viz_keys explanation_keys demo_keys header_keys
     full_doc_keys enhanced_source viz_source explanation_source demo_source
     header_source full_doc_source cells
        = Some saved ->
      exists before cell after,
        cells = before ++ cell :: after
        /\ Forall (fun c => Notebook.is_reflow_cell keys c = false) before
        /\ Notebook.is_reflow_cell keys cell = true
        /\ saved
           = firstn (List.length before + 6)
                    (before
                     ++ Notebook.mkCell keys (Notebook.cell_type keys cell) enhanced_source
                                        (Notebook.other_keys keys cell)
                     :: after)
             ++ [Notebook.mkCell keys "code" viz_source viz_keys;
                 Notebook.mkCell keys "markdown" explanation_source explanation_keys;
                 Notebook.mkCell keys "code" demo_source demo_keys;
                 Notebook.mkCell keys "markdown" header_source header_keys;
                 Notebook.mkCell keys "code" full_doc_source full_doc_keys]
             ++ skipn (List.length before + 6)
                      (before
                       ++ Notebook.mkCell keys (Notebook.cell_type keys cell)
                                          enhanced_source (Notebook.other_keys keys cell)
                       :: after)
        /\ List.length saved = (List.length cells + 5)%nat).
Proof.
  unfold Notebook.update_cells.
  pose proof (find_reflow_cell_spec cells 0) as Hfind.
  destruct (Notebook.find_reflow_cell keys 0 cells) as [index|].
  - destruct Hfind as [before [cell [after [Hc [Hi [Hb Hq]]]]]].
    simpl in Hi. subst index. split.
    + split; [discriminate|]. intros Hall. subst cells.
      apply Forall_app in Hall. destruct Hall as [_ Hall].
      inversion Hall; subst. congruence.
    + intros saved H. inversion H as [Hs]. clear H.
      exists before, cell, after. split; [exact Hc|]. split; [exact Hb|].
      split; [exact Hq|].
      rewrite Hc, set_source_at, five_inserts. split; [reflexivity|].
      rewrite !length_app, length_firstn, length_skipn, !length_app. simpl. lia.
  - split.
    + split; [intros _; exact Hfind | reflexivity].
    + intros saved H. discriminate.
Qed.

End NotebookUpdate.

Lemma notebook_update_outcome_witness :
  exists saved,
    Notebook.update_cells unit tt tt tt tt tt ["new"] ["viz"] ["why"] ["demo"] ["head"]
      ["full"]
      [Notebook.mkCell unit "markdown" ["# Title"] tt;
       Notebook.mkCell unit "code"
         ["class LineElement: pass"; "def reflow_page_with_line_numbers(p): pass"] tt]
    = Some saved
    /\ List.length saved = 7%nat.
Proof.
  eexists. split; [vm_compute; reflexivity|].
  destruct (notebook_update_outcome unit tt tt tt tt tt ["new"] ["viz"] ["why"] ["demo"]
              ["head"] ["full"]
              [Notebook.mkCell unit "markdown" ["# Title"] tt;
               Notebook.mkCell unit "code"
                 ["class LineElement: pass"; "def reflow_page_with_line_numbers(p): pass"]
                 tt]) as [_ H].
  destruct (H _ ltac:(vm_compute; reflexivity)) as [b [c [a [_ [_ [_ [_ Hlen]]]]]]].
  exact Hlen.
Defined.

(* ================================================================= *)
(** ** Moving the cursor *)

Lemma add_line_number_shift (d : Z) (separator : string)
    (line_numbers : list Offsets.LineElement) (st : Offsets.line_state) :
  Offsets.add_line_number separator line_numbers (shift_line_state d st)
    = shift_line_state d (Offsets.add_line_number separator line_numbers st).
Proof.
  destruct st as [[parts ws] cur]. destruct line_numbers as [|n ns]; [reflexivity|].
  simpl. rewrite map_app. simpl. unfold shift_word, shift_offset. simpl.
  replace (cur + d + Py.len (Offsets.content n))
    with (cur + Py.len (Offsets.content n) + d) by lia.
  replace (cur + Py.len (Offsets.content n) + d + Py.len separator)
    with (cur + Py.len (Offsets.content n) + Py.len separator + d) by lia.
  reflexivity.
Qed.

Lemma add_content_elements_shift (d : Z) (content_elements : list Offsets.LineElement) :
  forall (i : nat) (st : Offsets.line_state),
    Offsets.add_content_elements i content_elements (shift_line_state d st)
      = shift_line_state d (Offsets.add_content_elements i content_elements st).
Proof.
  induction content_elements as [|elem rest IH]; intros i st.
  - reflexivity.
  - destruct st as [[parts ws] cur]. simpl.
    destruct (Nat.ltb 0 i).
    + rewrite <- IH. f_equal. simpl. rewrite map_app. simpl.
      unfold shift_word, shift_offset. simpl.
      replace (cur + d + 1) with (cur + 1 + d) by lia.
      replace (cur + 1 + d + Py.len (Offsets.content elem))
        with (cur + 1 + Py.len (Offsets.content elem) + d) by lia.
      reflexivity.
    + rewrite <- IH. f_equal. simpl. rewrite map_app. simpl.
      unfold shift_word, shift_offset. simpl.
      replace (cur + d + Py.len (Offsets.content elem))
        with (cur + Py.len (Offsets.content elem) + d) by lia.
      reflexivity.
Qed.

Lemma reflow_group_shift (d : Z) (separator : string) (st : Offsets.page_state)
    (row : list Offsets.LineElement) :
  Offsets.reflow_group separator (shift_page_state d st) row
    = shift_page_state d (Offsets.reflow_group separator st row).
Proof.
  destruct st as [[out infos] cur]. unfold Offsets.reflow_group.
  cbn [shift_page_state].
  destruct (filter (fun e => negb (Offsets.is_line_number_flag e))
                   (Py.sorted Offsets.x_position row)) as [|c cs]; [reflexivity|].
  change ([], [], cur + d) with (shift_line_state d ([], [], cur)).
  rewrite add_line_number_shift, add_content_elements_shift.
  destruct (Offsets.add_content_elements 0 (c :: cs)
              (Offsets.add_line_number separator
                 (filter Offsets.is_line_number_flag (Py.sorted Offsets.x_position row))
                 ([], [], cur))) as [[parts ws] cur'].
  simpl. rewrite map_app. simpl. unfold shift_line at 2, shift_offset. simpl.
  replace (cur' + d + 1) with (cur' + 1 + d) by lia. reflexivity.
Qed.

Lemma fold_reflow_group_shift (d : Z) (separator : string)
    (groups : list (list Offsets.LineElement)) :
  forall st,
    fold_left (Offsets.reflow_group separator) groups (shift_page_state d st)
      = shift_page_state d (fold_left (Offsets.reflow_group separator) groups st).
Proof.
  induction groups as [|g gs IH]; intros st; simpl.
  - reflexivity.
  - rewrite reflow_group_shift. apply IH.
Qed.

(** X21: the loop of the notebook cell over the rows of a page is
    covariant in the cursor: started [d] characters further, it builds the
    same output lines and the same line records with every line and word
    span moved by [d], and ends [d] characters further. *)
Theorem rows_move_with_the_cursor (d : Z) (separator : string)
    (rows : list (list Offsets.LineElement)) (st : Offsets.page_state) :
  fold_left (Offsets.reflow_group separator) rows (shift_page_state d st)
    = shift_page_state d (fold_left (Offsets.reflow_group separator) rows st).
Proof. apply fold_reflow_group_shift. Qed.
